(** * processdata/plots.py: the four chart builders

    A shallow embedding of [total_growth], [daily_growth], [world_map] and
    [usa_map].  The tables the functions obtain from [getdata] live in a
    store, because [usa_map] edits its table in place; everything a builder
    hands to the charting library is kept as plain data (traces and a layout
    keyed by attribute path), so that the figures can be inspected. *)

From stdpp Require Import gmap strings list fin_maps.
From Stdlib Require Import ZArith.

Local Open Scope Z_scope.
Local Open Scope string_scope.

(** ** Python values that travel through the module *)

(** A row label of a pandas index: a position or a string (a date). *)
Inductive Label :=
  | LInt (n : Z)
  | LStr (s : string).

(** A table cell.  A float is carried as its binary64 bit pattern; the module
    never computes on cells, it only passes them on. *)
Inductive Scalar :=
  | SInt (n : Z)
  | SFloat (bits : Z)
  | SStr (s : string).

Global Instance Label_eq_dec : EqDecision Label.
Proof. solve_decision. Defined.

Global Instance Scalar_eq_dec : EqDecision Scalar.
Proof. solve_decision. Defined.

(** What [json.load] returns. *)
#[local] Unset Elimination Schemes.
Inductive JSON :=
  | JNull
  | JBool (b : bool)
  | JNum (m e : Z)
  | JStr (s : string)
  | JArr (items : list JSON)
  | JObj (members : list (string * JSON)).
#[local] Set Elimination Schemes.

(** The key a [KeyError] complains about. *)
Inductive Key :=
  | Columns (names : list string)
  | Labels (labels : list Label).

(** The exceptions the module can let escape. *)
Inductive exn :=
  | AttributeError (attr : string)
  | KeyError (k : Key)
  | ValueError (what : string)
  | TypeError (what : string)
  | URLError.

(** ** pandas *)

(** A frame: the row labels in order and the columns by name, each a list of
    cells in row order.  Column names are the keys of a map, so a frame that
    repeats a column name is outside the model; the operations below never
    look at the lengths, a frame of pandas has all of them equal. *)
Record DataFrame := {
  index : list Label;
  columns : gmap string (list Scalar)
}.

Module pd.

(** The cells of [col] whose row label satisfies [P]. *)
Definition rows_where {A} (P : Label → Prop) `{!∀ l, Decision (P l)}
    (idx : list Label) (col : list A) : list A :=
  (filter (λ p, P p.1) (zip idx col)).*2.

(** [df.name]: a column read as an attribute. *)
Definition getattr (df : DataFrame) (name : string) : exn + list Scalar :=
  match columns df !! name with
  | Some col => inr col
  | None => inl (AttributeError name)
  end.

(** [df[name]]. *)
Definition getitem (df : DataFrame) (name : string) : exn + list Scalar :=
  match columns df !! name with
  | Some col => inr col
  | None => inl (KeyError (Columns [name]))
  end.

(** [df[[n1, n2, ...]]]: a new frame with the listed columns. *)
Definition getitem_list (df : DataFrame) (names : list string) : exn + DataFrame :=
  match filter (λ n, columns df !! n = None) names with
  | [] => inr {| index := index df;
                 columns := filter (λ kv, kv.1 ∈ names) (columns df) |}
  | missing => inl (KeyError (Columns missing))
  end.

(** [df.drop(labels)]: every row carrying one of the labels goes; a label
    that is not in the index is an error. *)
Definition drop (df : DataFrame) (labels : list Label) : exn + DataFrame :=
  match filter (λ l, l ∉ index df) labels with
  | [] => inr {| index := filter (λ l, l ∉ labels) (index df);
                 columns := rows_where (λ l, l ∉ labels) (index df) <$> columns df |}
  | missing => inl (KeyError (Labels missing))
  end.

End pd.

(** ** The store of tables and the monad of the builders *)

(** The table objects the [getdata] calls hand out. *)
Inductive TableRef :=
  | RealtimeGrowth
  | DailyConfirmed
  | DailyDeaths
  | DailyReport
  | UsaCounties.

Record Store := {
  realtime_growth_tbl : DataFrame;
  daily_confirmed_tbl : DataFrame;
  daily_deaths_tbl : DataFrame;
  daily_report_tbl : DataFrame;
  usa_counties_tbl : DataFrame
}.

Definition load (r : TableRef) (s : Store) : DataFrame :=
  match r with
  | RealtimeGrowth => realtime_growth_tbl s
  | DailyConfirmed => daily_confirmed_tbl s
  | DailyDeaths => daily_deaths_tbl s
  | DailyReport => daily_report_tbl s
  | UsaCounties => usa_counties_tbl s
  end.

Definition store (r : TableRef) (df : DataFrame) (s : Store) : Store :=
  match r with
  | RealtimeGrowth =>
      {| realtime_growth_tbl := df; daily_confirmed_tbl := daily_confirmed_tbl s;
         daily_deaths_tbl := daily_deaths_tbl s; daily_report_tbl := daily_report_tbl s;
         usa_counties_tbl := usa_counties_tbl s |}
  | DailyConfirmed =>
      {| realtime_growth_tbl := realtime_growth_tbl s; daily_confirmed_tbl := df;
         daily_deaths_tbl := daily_deaths_tbl s; daily_report_tbl := daily_report_tbl s;
         usa_counties_tbl := usa_counties_tbl s |}
  | DailyDeaths =>
      {| realtime_growth_tbl := realtime_growth_tbl s; daily_confirmed_tbl := daily_confirmed_tbl s;
         daily_deaths_tbl := df; daily_report_tbl := daily_report_tbl s;
         usa_counties_tbl := usa_counties_tbl s |}
  | DailyReport =>
      {| realtime_growth_tbl := realtime_growth_tbl s; daily_confirmed_tbl := daily_confirmed_tbl s;
         daily_deaths_tbl := daily_deaths_tbl s; daily_report_tbl := df;
         usa_counties_tbl := usa_counties_tbl s |}
  | UsaCounties =>
      {| realtime_growth_tbl := realtime_growth_tbl s; daily_confirmed_tbl := daily_confirmed_tbl s;
         daily_deaths_tbl := daily_deaths_tbl s; daily_report_tbl := daily_report_tbl s;
         usa_counties_tbl := df |}
  end.

(** A computation reads and writes the store and either raises or returns. *)
Definition M (A : Type) : Type := Store → (exn + A) * Store.

Definition ret {A} (a : A) : M A := λ s, (inr a, s).

Definition raise {A} (e : exn) : M A := λ s, (inl e, s).

Definition bind {A B} (c : M A) (k : A → M B) : M B :=
  λ s, match c s with
       | (inr a, s') => k a s'
       | (inl e, s') => (inl e, s')
       end.

Definition lift {A} (r : exn + A) : M A :=
  match r with
  | inr a => ret a
  | inl e => raise e
  end.

Declare Scope py_scope.
Delimit Scope py_scope with py.
Notation "x <- c ;; k" := (bind c (λ x, k))
  (at level 100, c at next level, right associativity) : py_scope.
Notation "c ;;; k" := (bind c (λ _, k))
  (at level 100, right associativity) : py_scope.
Local Open Scope py_scope.

(** Reads of a table object. *)
Definition read {A} (r : TableRef) (f : DataFrame → exn + A) : M A :=
  λ s, (f (load r s), s).

(** [df.drop(labels, inplace=True)]: the object itself loses the rows; when
    [drop] raises the object is as before. *)
Definition drop_inplace (r : TableRef) (labels : list Label) : M unit :=
  λ s, match pd.drop (load r s) labels with
       | inr df' => (inr tt, store r df' s)
       | inl e => (inl e, s)
       end.

(** The data provider.  [processdata/getdata.py] is not among the sources;
    what the spec says of it (section 6) is that each of its operations
    returns a table.  A call returns the table object the store holds under
    that name, and the contents of the store are the inputs of the
    builders. *)
Module getdata.

(** Modelled from the spec: the cumulative global series (TimeSeriesTable). *)
Definition realtime_growth : M TableRef := ret RealtimeGrowth.

(** Modelled from the spec: the daily new cases (DailyTable). *)
Definition daily_confirmed : M TableRef := ret DailyConfirmed.

(** Modelled from the spec: the daily new deaths (DailyTable). *)
Definition daily_deaths : M TableRef := ret DailyDeaths.

(** Modelled from the spec: the latest per-location snapshot (GeoPointTable). *)
Definition daily_report : M TableRef := ret DailyReport.

(** Modelled from the spec: the latest per-county snapshot (CountyTable). *)
Definition usa_counties : M TableRef := ret UsaCounties.

End getdata.

(** ** plotly: figures as data

    A trace or layout constructor keeps the arguments it is given; the
    validation plotly runs on attribute values is not modelled. *)

(** A plain attribute value.  A decimal literal [m]e[e] is kept as written
    ([0.05] is [PDec 5 (-2)]). *)
Inductive Prim :=
  | PStr (s : string)
  | PInt (n : Z)
  | PDec (m e : Z)
  | PBool (b : bool).

Global Instance Prim_eq_dec : EqDecision Prim.
Proof. solve_decision. Defined.

(** A button of an update menu: [dict(args=..., label=..., method=...)]. *)
Record MenuButton := {
  mb_args : list (list (string * Prim));
  mb_label : string;
  mb_method : string
}.

(** An entry of [updatemenus]. *)
Record UpdateMenu := {
  um_type : string;
  um_buttons : list MenuButton;
  um_x : Prim;
  um_xanchor : string;
  um_bgcolor : string
}.

(** A button of an x-axis range selector:
    [dict(count=..., label=..., step=..., stepmode=...)]; a key that is not
    given is [None]. *)
Record RangeButton := {
  rb_count : option Z;
  rb_label : string;
  rb_step : string;
  rb_stepmode : option string
}.

(** A layout attribute. *)
Inductive Attr :=
  | APrim (p : Prim)
  | AUpdatemenus (menus : list UpdateMenu)
  | ARangeButtons (buttons : list RangeButton).

(** The [visible] attribute of a trace. *)
Inductive Visible :=
  | visible_true
  | visible_false
  | legendonly.

(** [go.Scatter(x, y, name, mode, line=dict(width), marker_color)]. *)
Record Scatter := {
  sc_x : list Z;
  sc_y : list Scalar;
  sc_name : string;
  sc_mode : string;
  sc_line_width : Z;
  sc_marker_color : option string
}.

(** [go.Bar(x, y, name, marker_color, visible)]. *)
Record Bar := {
  bar_x : list Scalar;
  bar_y : list Scalar;
  bar_name : string;
  bar_marker_color : option string;
  bar_visible : option Visible
}.

(** The colour of the markers of a bubble trace: one value per row, mapped
    through the colour axis, or one fixed colour for the whole trace. *)
Inductive MarkerColor :=
  | ColorArray (values : list Scalar)
  | ColorFixed (c : string).

(** The bubble trace [px.scatter_mapbox] builds. *)
Record Scattermapbox := {
  sm_name : option Scalar;
  sm_lat : list Scalar;
  sm_lon : list Scalar;
  sm_hovertext : list Scalar;
  sm_customdata : list (list Scalar);
  sm_hover_names : list string;
  sm_marker_color : MarkerColor;
  sm_marker_size : list Scalar
}.

(** [go.Choroplethmapbox(geojson, locations, z, marker_opacity,
    marker_line_width, colorscale)]. *)
Record Choroplethmapbox := {
  ch_geojson : JSON;
  ch_locations : list Scalar;
  ch_z : list Scalar;
  ch_marker_opacity : Prim;
  ch_marker_line_width : Z;
  ch_colorscale : list (Prim * string)
}.

Inductive Trace :=
  | go_Scatter (t : Scatter)
  | go_Bar (t : Bar)
  | go_Scattermapbox (t : Scattermapbox)
  | go_Choroplethmapbox (t : Choroplethmapbox).

(** A figure: its traces in insertion order and its layout, keyed by
    attribute path ([yaxis_type] and ['yaxis.type'] are the same key
    ["yaxis.type"]). *)
Record Figure := {
  data : list Trace;
  layout : gmap string Attr
}.

(** [Layout(k1=v1, ...)] *)
Definition Layout (kvs : list (string * Attr)) : gmap string Attr :=
  list_to_map kvs.

(** [fig.update_layout(k1=v1, ...)], also [update_xaxes] and [update_yaxes]
    with the axis prefix written out: the given keys are set, the others
    stay. *)
Definition update_layout (fig : Figure) (kvs : list (string * Attr)) : Figure :=
  {| data := data fig;
     layout := foldl (λ m kv, <[kv.1 := kv.2]> m) (layout fig) kvs |}.

(** [fig.add_traces(ts)] *)
Definition add_traces (fig : Figure) (ts : list Trace) : Figure :=
  {| data := data fig ++ ts; layout := layout fig |}.

(** The size value and the colour value the bubble of row [i] is drawn
    from. *)
Definition bubble_size (t : Scattermapbox) (i : nat) : option Scalar :=
  sm_marker_size t !! i.

Definition bubble_color (t : Scattermapbox) (i : nat) : option Scalar :=
  match sm_marker_color t with
  | ColorArray values => values !! i
  | ColorFixed _ => None
  end.

(** The arguments of [plotly.offline.plot] the module sets. *)
Record PlotArgs := {
  include_plotlyjs : bool;
  output_type : string;
  displayModeBar : bool
}.

(** The visibility plotly starts a trace with: a trace is drawn unless its
    [visible] says otherwise. *)
Definition initially_drawn (v : option Visible) : bool :=
  match v with
  | None | Some visible_true => true
  | Some visible_false | Some legendonly => false
  end.

(** Writing the [visible] flag of a bar trace, as a click on its legend
    entry does; the other attributes are copied. *)
Definition bar_set_visible (v : Visible) (t : Bar) : Bar :=
  {| bar_x := bar_x t; bar_y := bar_y t; bar_name := bar_name t;
     bar_marker_color := bar_marker_color t; bar_visible := Some v |}.

(** *** Update menus in the page *)

Module updatemenus.

(** [Plotly.relayout(gd, update)]: every path of [update] is set in the
    layout; the traces are not an argument of the call. *)
Definition relayout (update : list (string * Prim)) (fig : Figure) : Figure :=
  {| data := data fig;
     layout := foldl (λ m kv, <[kv.1 := APrim kv.2]> m) (layout fig) update |}.

(** Choosing a button calls its [method] with its [args].  Of the methods
    only [relayout] occurs in this module; the others give [None]. *)
Definition press (b : MenuButton) (fig : Figure) : option Figure :=
  if decide (mb_method b = "relayout") then
    match mb_args b with
    | update :: _ => Some (relayout update fig)
    | [] => Some fig
    end
  else None.

(** A sequence of choices, first to last. *)
Fixpoint press_all (bs : list MenuButton) (fig : Figure) : option Figure :=
  match bs with
  | [] => Some fig
  | b :: bs' =>
      match press b fig with
      | Some fig' => press_all bs' fig'
      | None => None
      end
  end.

(** The buttons the figure offers. *)
Definition buttons (fig : Figure) : list MenuButton :=
  match layout fig !! "updatemenus" with
  | Some (AUpdatemenus menus) => menus ≫= um_buttons
  | _ => []
  end.

End updatemenus.

(** *** plotly express *)

Module px.

Definition is_number (c : Scalar) : bool :=
  match c with
  | SInt _ | SFloat _ => true
  | SStr _ => false
  end.

(** A column named in the call must be a column of the frame. *)
Definition column (name : string) (df : DataFrame) : exn + list Scalar :=
  match columns df !! name with
  | Some col => inr col
  | None => inl (ValueError name)
  end.

(** The same for a list of names; the first name that is missing is the one
    reported. *)
Fixpoint column_list (names : list string) (df : DataFrame) : exn + list (list Scalar) :=
  match names with
  | [] => inr []
  | n :: names' =>
      match column n df with
      | inl e => inl e
      | inr col =>
          match column_list names' df with
          | inl e => inl e
          | inr cols => inr (col :: cols)
          end
      end
  end.

(** The name a column is shown under: [labels] renames it. *)
Definition shown_as (labels : list (string * string)) (name : string) : string :=
  default name ((list_to_map labels : gmap string string) !! name).

(** The values of a column in order of first appearance. *)
Fixpoint distinct (seen l : list Scalar) : list Scalar :=
  match l with
  | [] => []
  | v :: l' =>
      if decide (v ∈ seen) then distinct seen l' else v :: distinct (v :: seen) l'
  end.

(** The cells of [col] in the rows where [keys] is [v]. *)
Definition group {A} (keys : list Scalar) (v : Scalar) (col : list A) : list A :=
  (filter (λ p, p.1 = v) (zip keys col)).*2.

(** [px.colors.qualitative.Plotly] *)
Definition qualitative : list string :=
  ["#636EFA"; "#EF553B"; "#00CC96"; "#AB63FA"; "#FFA15A";
   "#19D3F3"; "#FF6692"; "#B6E880"; "#FF97FF"; "#FECB52"].

(** [px.scatter_mapbox(df, lat, lon, color, size, hover_name, hover_data,
    labels, zoom, center, height)].  The size column has to be numeric.  A
    numeric colour column gives one trace whose marker colours and marker
    sizes are the two columns themselves; any other colour column gives one
    trace per value, each in a fixed colour.  Of the layout only what follows
    from the arguments is listed, not what the default template adds.  The
    model is for a frame with rows: on a frame without any, plotly 4 builds a
    figure without a trace, and the sizes plotly would refuse (negative, not
    a number) are not told apart here. *)
Definition scatter_mapbox (df : TableRef) (lat lon color size hover_name : string)
    (hover_data : list string) (labels : list (string * string))
    (zoom : Prim) (center : Prim * Prim) (height : Z) : M Figure :=
  (lats <- read df (column lat) ;;
   lons <- read df (column lon) ;;
   colors <- read df (column color) ;;
   sizes <- read df (column size) ;;
   names <- read df (column hover_name) ;;
   custom <- read df (column_list hover_data) ;;
   if forallb is_number sizes then
     let common :=
       [("mapbox.zoom", APrim zoom);
        ("mapbox.center.lat", APrim center.1);
        ("mapbox.center.lon", APrim center.2);
        ("height", APrim (PInt height));
        ("legend.itemsizing", APrim (PStr "constant"));
        ("legend.tracegroupgap", APrim (PInt 0));
        ("margin.t", APrim (PInt 60))] in
     if forallb is_number colors then
       ret {| data := [go_Scattermapbox
                         {| sm_name := None; sm_lat := lats; sm_lon := lons;
                            sm_hovertext := names; sm_customdata := custom;
                            sm_hover_names := shown_as labels <$> hover_data;
                            sm_marker_color := ColorArray colors;
                            sm_marker_size := sizes |}];
              layout := Layout (("coloraxis.colorbar.title.text",
                                 APrim (PStr (shown_as labels color))) :: common) |}
     else
       ret {| data := imap (λ i v,
                         go_Scattermapbox
                           {| sm_name := Some v;
                              sm_lat := group colors v lats;
                              sm_lon := group colors v lons;
                              sm_hovertext := group colors v names;
                              sm_customdata := group colors v <$> custom;
                              sm_hover_names := shown_as labels <$> hover_data;
                              sm_marker_color :=
                                ColorFixed (default "" (qualitative !! (i `mod` 10)%nat));
                              sm_marker_size := group colors v sizes |})
                       (distinct [] colors);
              layout := Layout (("legend.title.text",
                                 APrim (PStr (shown_as labels color))) :: common) |}
   else raise (TypeError size))%py.

End px.

(** ** The module *)

(** The [layout] of [total_growth] (lines 24 to 34). *)
Definition total_growth_layout : gmap string Attr :=
  Layout [("paper_bgcolor", APrim (PStr "rgba(0,0,0,0)"));
          ("plot_bgcolor", APrim (PStr "rgba(0,0,0,0)"));
          ("yaxis.type", APrim (PStr "log"));
          ("xaxis.showgrid", APrim (PBool false));
          ("template", APrim (PStr "plotly_dark"));
          ("showlegend", APrim (PBool false));
          ("font.color", APrim (PStr "#8898aa"));
          ("height", APrim (PInt 310));
          ("margin.t", APrim (PInt 0)); ("margin.l", APrim (PInt 10));
          ("margin.r", APrim (PInt 10)); ("margin.b", APrim (PInt 0))].

(** The two buttons of the dropdown of [total_growth] (lines 42 to 51). *)
Definition Logarithmic : MenuButton :=
  {| mb_args := [[("yaxis.type", PStr "log")]];
     mb_label := "Logarithmic";
     mb_method := "relayout" |}.

Definition Linear : MenuButton :=
  {| mb_args := [[("yaxis.type", PStr "linear")]];
     mb_label := "Linear";
     mb_method := "relayout" |}.

(** The [updatemenus] of [total_growth] (lines 38 to 57). *)
Definition total_growth_updatemenus : list UpdateMenu :=
  [{| um_type := "dropdown";
      um_buttons := [Logarithmic; Linear];
      um_x := PDec 5 (-2);
      um_xanchor := "auto";
      um_bgcolor := "rgba(0,0,0,0)" |}].

(** The [layout] of [daily_growth] (line 79). *)
Definition daily_growth_layout : gmap string Attr :=
  Layout [("paper_bgcolor", APrim (PStr "rgba(0,0,0,0)"));
          ("plot_bgcolor", APrim (PStr "rgba(0,0,0,0)"));
          ("legend.x", APrim (PDec 25 (-3))); ("legend.y", APrim (PInt 1));
          ("height", APrim (PInt 310));
          ("margin.t", APrim (PInt 0)); ("margin.l", APrim (PInt 15));
          ("margin.r", APrim (PInt 10)); ("margin.b", APrim (PInt 0));
          ("barmode", APrim (PStr "stack"))].

(** The buttons of the range selector of [daily_growth] (lines 86 to 91). *)
Definition daily_growth_rangeselector : list RangeButton :=
  [{| rb_count := Some 7; rb_label := "W"; rb_step := "day";
      rb_stepmode := Some "backward" |};
   {| rb_count := Some 1; rb_label := "M"; rb_step := "month";
      rb_stepmode := Some "backward" |};
   {| rb_count := Some 3; rb_label := "3M"; rb_step := "month";
      rb_stepmode := Some "backward" |};
   {| rb_count := None; rb_label := "T"; rb_step := "all";
      rb_stepmode := None |}].

(** The three columns [total_growth] reads, in the order it reads them
    (lines 60 to 62). *)
Definition total_growth_columns : list string := ["Confirmed"; "Recovered"; "Deaths"].

(** The arguments every builder gives [plot] (lines 65 and 96); [world_map]
    turns [include_plotlyjs] off (line 118). *)
Definition plot_div_args (include_plotlyjs : bool) : PlotArgs :=
  {| include_plotlyjs := include_plotlyjs; output_type := "div";
     displayModeBar := false |}.

Section plots.

(** [pd.to_datetime] on an index: the timestamps (nanoseconds), or nothing
    when a label does not parse. *)
Variable to_datetime : list Label → option (list Z).

(** [plotly.offline.plot]: the renderer. *)
Variable plot : Figure → PlotArgs → string.

(** The colour of the last stop of the colour scale of [usa_map]: the
    literal is cut off in the source (line 139). *)
Variable last_stop_color : string.

(** Lines 22 to 64 of [total_growth]: the figure handed to [plot]. *)
Definition total_growth_figure : M Figure :=
  df <- getdata.realtime_growth ;;
  dates <- read df (λ d, from_option inr (inl (ValueError "to_datetime"))
                           (to_datetime (index d))) ;;
  let layout := total_growth_layout in
  let fig := {| data := []; layout := layout |} in
  let fig := update_layout fig [("updatemenus", AUpdatemenus total_growth_updatemenus)] in
  confirmed <- read df (λ d, pd.getattr d "Confirmed") ;;
  let confirmed_trace :=
    go_Scatter {| sc_x := dates; sc_y := confirmed; sc_name := "Confirmed";
                  sc_mode := "lines"; sc_line_width := 4; sc_marker_color := None |} in
  recovered <- read df (λ d, pd.getattr d "Recovered") ;;
  let recovered_trace :=
    go_Scatter {| sc_x := dates; sc_y := recovered; sc_name := "Recovered";
                  sc_mode := "lines"; sc_line_width := 4; sc_marker_color := None |} in
  deaths <- read df (λ d, pd.getattr d "Deaths") ;;
  let deaths_trace :=
    go_Scatter {| sc_x := dates; sc_y := deaths; sc_name := "Deaths";
                  sc_mode := "lines"; sc_line_width := 4;
                  sc_marker_color := Some "#f5365c" |} in
  ret (add_traces fig [confirmed_trace; deaths_trace; recovered_trace]).

Definition total_growth : M string :=
  fig <- total_growth_figure ;;
  let plot_div := plot fig (plot_div_args true) in
  ret plot_div.

(** Lines 77 to 95 of [daily_growth]. *)
Definition daily_growth_figure : M Figure :=
  t <- getdata.daily_confirmed ;;
  daily_cases <- read t (λ d, pd.getitem_list d ["date"; "World"]) ;;
  t <- getdata.daily_deaths ;;
  daily_deaths <- read t (λ d, pd.getitem_list d ["date"; "World"]) ;;
  let layout := daily_growth_layout in
  let fig := {| data := []; layout := layout |} in
  deaths_date <- lift (pd.getattr daily_deaths "date") ;;
  deaths_World <- lift (pd.getattr daily_deaths "World") ;;
  let daily_deaths_trace :=
    go_Bar {| bar_x := deaths_date; bar_y := deaths_World; bar_name := "Deaths";
              bar_marker_color := Some "#f5365c"; bar_visible := None |} in
  cases_date <- lift (pd.getattr daily_cases "date") ;;
  cases_World <- lift (pd.getattr daily_cases "World") ;;
  let daily_cases_trace :=
    go_Bar {| bar_x := cases_date; bar_y := cases_World; bar_name := "Cases";
              bar_marker_color := None; bar_visible := Some legendonly |} in
  let fig :=
    update_layout fig
      [("xaxis.rangeselector.buttons", ARangeButtons daily_growth_rangeselector)] in
  let fig := update_layout fig [("yaxis.gridcolor", APrim (PStr "#fff"))] in
  ret (add_traces fig [daily_cases_trace; daily_deaths_trace]).

Definition daily_growth : M string :=
  fig <- daily_growth_figure ;;
  let plot_div := plot fig (plot_div_args true) in
  ret plot_div.

(** Lines 105 to 117 of [world_map]. *)
Definition world_map_figure : M Figure :=
  df <- getdata.daily_report ;;
  fig <- px.scatter_mapbox df "Lat" "Long_" "Confirmed" "Confirmed" "Country_Region"
           ["Combined_Key"; "Confirmed"] [("Combined_Key", "loc")]
           (PInt 1) (PDec 200 (-1), PDec (-200) (-1)) 450 ;;
  ret (update_layout fig
         [("mapbox.style", APrim (PStr "carto-positron"));
          ("paper_bgcolor", APrim (PStr "rgba(0,0,0,0)"));
          ("margin.t", APrim (PInt 0)); ("margin.l", APrim (PInt 0));
          ("margin.r", APrim (PInt 0)); ("margin.b", APrim (PInt 0))]).

Definition world_map : M string :=
  fig <- world_map_figure ;;
  let plot_div := plot fig (plot_div_args false) in
  ret plot_div.

(** Lines 126 to 148 of [usa_map].  [response] is what [urlopen] and
    [json.load] come back with. *)
Definition usa_map_figure (response : exn + JSON) : M Figure :=
  counties <- lift response ;;
  df <- getdata.usa_counties ;;
  drop_inplace df [LInt 2311] ;;;
  fips <- read df (λ d, pd.getattr d "fips") ;;
  cases_capita <- read df (λ d, pd.getitem d "cases/capita") ;;
  let fig :=
    {| data := [go_Choroplethmapbox
                  {| ch_geojson := counties;
                     ch_locations := fips;
                     ch_z := cases_capita;
                     ch_marker_opacity := PDec 8 (-1);
                     ch_marker_line_width := 0;
                     ch_colorscale :=
                       [(PInt 0, "#FFE9E6"); (PDec 15 (-2), "#DA3A03");
                        (PDec 50 (-2), "#331112"); (PDec 10 (-1), last_stop_color)] |}];
       layout := ∅ |} in
  ret (update_layout fig
         [("mapbox.style", APrim (PStr "carto-positron"));
          ("mapbox.zoom", APrim (PDec 275 (-2)));
          ("mapbox.center.lat", APrim (PDec 370902 (-4)));
          ("mapbox.center.lon", APrim (PDec (-957129) (-4)));
          ("margin.t", APrim (PInt 0)); ("margin.l", APrim (PInt 0));
          ("margin.r", APrim (PInt 0)); ("margin.b", APrim (PInt 0))]).

(** [usa_map] builds the figure and then returns [None] (line 150). *)
Definition usa_map (response : exn + JSON) : M (option string) :=
  usa_map_figure response ;;;
  ret None.

End plots.

(** A computation that leaves every table of the store as it found it,
    whether it returns or raises. *)
Definition preserves {A} (c : M A) : Prop := ∀ s, (c s).2 = s.

(** A frame whose columns all have one cell per row, as every frame of
    pandas has. *)
Definition well_formed (df : DataFrame) : Prop :=
  ∀ name col, columns df !! name = Some col → length col = length (index df).

(** The columns [daily_growth] selects from each of its tables (lines 77
    and 78). *)
Definition daily_growth_columns : list string := ["date"; "World"].

(** The columns [world_map] names in its call of [px.scatter_mapbox] (lines
    107 to 111). *)
Definition world_map_columns : list string :=
  ["Lat"; "Long_"; "Confirmed"; "Country_Region"; "Combined_Key"].

(** ** Sample inputs *)

Module sample.

(** Integer labels are taken as nanosecond timestamps; a string label is not
    parsed by this sample. *)
Definition to_datetime (idx : list Label) : option (list Z) :=
  mapM (λ l, match l with LInt n => Some n | LStr _ => None end) idx.

Definition plot (fig : Figure) (args : PlotArgs) : string := "<div></div>".

Definition growth : DataFrame :=
  {| index := [LInt 1579651200000000000; LInt 1579737600000000000;
               LInt 1579824000000000000];
     columns := list_to_map
       [("Confirmed", [SInt 555; SInt 654; SInt 941]);
        ("Recovered", [SInt 28; SInt 30; SInt 36]);
        ("Deaths", [SInt 17; SInt 18; SInt 26])] |}.

Definition cases : DataFrame :=
  {| index := [LInt 0; LInt 1];
     columns := list_to_map
       [("date", [SStr "2020-01-23"; SStr "2020-01-24"]);
        ("World", [SInt 99; SInt 287]);
        ("China", [SInt 95; SInt 277])] |}.

Definition deaths : DataFrame :=
  {| index := [LInt 0; LInt 1];
     columns := list_to_map
       [("date", [SStr "2020-01-23"; SStr "2020-01-24"]);
        ("World", [SInt 1; SInt 8]);
        ("China", [SInt 1; SInt 8])] |}.

Definition report : DataFrame :=
  {| index := [LInt 0; LInt 1];
     columns := list_to_map
       [("Lat", [SFloat 0x4045400000000000; SFloat 0x4044000000000000]);
        ("Long_", [SFloat 0x4029000000000000; SFloat 0xC010000000000000]);
        ("Confirmed", [SInt 120; SInt 4300]);
        ("Country_Region", [SStr "Italy"; SStr "Spain"]);
        ("Combined_Key", [SStr "Italy"; SStr "Spain"])] |}.

Definition counties : DataFrame :=
  {| index := [LInt 2310; LInt 2311; LInt 2312];
     columns := list_to_map
       [("fips", [SStr "46099"; SStr "46102"; SStr "46103"]);
        ("cases/capita", [SFloat 0x3F50624DD2F1A9FC; SFloat 0x3F60624DD2F1A9FC;
                          SFloat 0x3F689374BC6A7EFA])] |}.

(** The same table under a fresh default index. *)
Definition counties_renumbered : DataFrame :=
  {| index := [LInt 0; LInt 1; LInt 2]; columns := columns counties |}.

Definition tables : Store :=
  {| realtime_growth_tbl := growth; daily_confirmed_tbl := cases;
     daily_deaths_tbl := deaths; daily_report_tbl := report;
     usa_counties_tbl := counties |}.

(** The tables with the county table renumbered. *)
Definition tables_renumbered : Store :=
  {| realtime_growth_tbl := growth; daily_confirmed_tbl := cases;
     daily_deaths_tbl := deaths; daily_report_tbl := report;
     usa_counties_tbl := counties_renumbered |}.

(** The growth table without its [Recovered] column. *)
Definition tables_no_Recovered : Store :=
  {| realtime_growth_tbl :=
       {| index := index growth; columns := delete "Recovered" (columns growth) |};
     daily_confirmed_tbl := cases; daily_deaths_tbl := deaths;
     daily_report_tbl := report; usa_counties_tbl := counties |}.

Definition boundaries : JSON :=
  JObj [("type", JStr "FeatureCollection"); ("features", JArr [])].

(** A value for the colour stop that is cut off in the source. *)
Definition last_stop_color : string := "#000000".

(** The county table without its [fips] column, and without its
    [cases/capita] column. *)
Definition tables_no_fips : Store :=
  {| realtime_growth_tbl := growth; daily_confirmed_tbl := cases;
     daily_deaths_tbl := deaths; daily_report_tbl := report;
     usa_counties_tbl :=
       {| index := index counties; columns := delete "fips" (columns counties) |} |}.

Definition tables_no_cases_capita : Store :=
  {| realtime_growth_tbl := growth; daily_confirmed_tbl := cases;
     daily_deaths_tbl := deaths; daily_report_tbl := report;
     usa_counties_tbl :=
       {| index := index counties;
          columns := delete "cases/capita" (columns counties) |} |}.

(** The growth table under an index of strings that are no dates. *)
Definition tables_bad_index : Store :=
  {| realtime_growth_tbl :=
       {| index := [LStr "first"; LStr "second"; LStr "third"];
          columns := delete "Deaths" (columns growth) |};
     daily_confirmed_tbl := cases; daily_deaths_tbl := deaths;
     daily_report_tbl := report; usa_counties_tbl := counties |}.

(** The daily tables with a column missing: the cases without [World], the
    deaths without [date]. *)
Definition tables_no_World : Store :=
  {| realtime_growth_tbl := growth;
     daily_confirmed_tbl :=
       {| index := index cases; columns := delete "World" (columns cases) |};
     daily_deaths_tbl :=
       {| index := index deaths; columns := delete "date" (columns deaths) |};
     daily_report_tbl := report; usa_counties_tbl := counties |}.

(** The report without its [Long_] column. *)
Definition tables_no_Long : Store :=
  {| realtime_growth_tbl := growth; daily_confirmed_tbl := cases;
     daily_deaths_tbl := deaths;
     daily_report_tbl :=
       {| index := index report; columns := delete "Long_" (columns report) |};
     usa_counties_tbl := counties |}.

(** Tables that agree with [tables] on what the builders read and differ
    elsewhere: another column in the growth table, other per-country columns
    and another index in the daily tables, another column and another index
    in the report, another column in the county table. *)
Definition tables_elsewhere : Store :=
  {| realtime_growth_tbl :=
       {| index := index growth;
          columns := <["Active" := [SInt 510; SInt 606; SInt 879]]> (columns growth) |};
     daily_confirmed_tbl :=
       {| index := [LInt 7; LInt 8];
          columns := <["China" := [SInt 0; SInt 0]]> (columns cases) |};
     daily_deaths_tbl :=
       {| index := [LStr "a"; LStr "b"];
          columns := delete "China" (columns deaths) |};
     daily_report_tbl :=
       {| index := [LInt 10; LInt 11];
          columns := <["Deaths" := [SInt 2; SInt 90]]> (columns report) |};
     usa_counties_tbl :=
       {| index := index counties;
          columns := <["state" := [SStr "South Dakota"; SStr "South Dakota";
                                  SStr "South Dakota"]]> (columns counties) |} |}.

End sample.

(** * Properties *)

(** Unfolding the monad and the table reads. *)
Ltac run :=
  unfold getdata.realtime_growth, getdata.daily_confirmed, getdata.daily_deaths,
    getdata.daily_report, getdata.usa_counties;
  unfold bind, read, lift, ret, raise, drop_inplace; cbn [load].

(** Membership in a list that is written out. *)
Ltac listed := repeat first [apply list_elem_of_here | apply list_elem_of_further].

Section pandas_facts.

(** A cell of [rows_where] comes from a row whose label satisfies the test. *)
Lemma rows_where_from_row {A} (P : Label → Prop) `{!∀ l, Decision (P l)}
    (idx : list Label) (col : list A) (v : A) :
  v ∈ pd.rows_where P idx col →
  ∃ (i : nat) l, idx !! i = Some l ∧ col !! i = Some v ∧ P l.
Proof.
  unfold pd.rows_where. intros Hv.
  apply list_elem_of_fmap in Hv as [[l v'] [-> Hin]].
  apply list_elem_of_filter in Hin as [HP Hin].
  apply list_elem_of_lookup in Hin as [i Hi].
  apply lookup_zip_with_Some in Hi as (l0 & v0 & Heq & Hl & Hc).
  injection Heq as <- <-. exists i, l. auto.
Qed.

Lemma rows_where_ext {A} (P Q : Label → Prop)
    `{!∀ l, Decision (P l)} `{!∀ l, Decision (Q l)} (idx : list Label) (col : list A) :
  (∀ l, P l ↔ Q l) → pd.rows_where P idx col = pd.rows_where Q idx col.
Proof.
  intros HPQ. unfold pd.rows_where. f_equal.
  apply list_filter_iff. intros [l v]. apply HPQ.
Qed.

(** [drop] of the single label 2311 when the index has it. *)
Lemma drop_2311_present (df : DataFrame) :
  LInt 2311 ∈ index df →
  pd.drop df [LInt 2311] =
    inr {| index := filter (λ l, l ∉ [LInt 2311]) (index df);
           columns := pd.rows_where (λ l, l ∉ [LInt 2311]) (index df) <$> columns df |}.
Proof.
  intros Hin. unfold pd.drop.
  rewrite filter_cons_False by (intros Hn; by apply Hn).
  by rewrite filter_nil.
Qed.

(** [drop] of the single label 2311 when the index lacks it. *)
Lemma drop_2311_absent (df : DataFrame) :
  LInt 2311 ∉ index df →
  pd.drop df [LInt 2311] = inl (KeyError (Labels [LInt 2311])).
Proof.
  intros Hnin. unfold pd.drop.
  rewrite filter_cons_True by done.
  by rewrite filter_nil.
Qed.

Lemma not_in_singleton_2311 (l : Label) : l ∉ [LInt 2311] ↔ l ≠ LInt 2311.
Proof. rewrite list_elem_of_singleton. done. Qed.

End pandas_facts.

Section usa_map_facts.

Variable last_stop_color : string.

(** What [usa_map_figure] does, by the outcome of the fetch and of the
    [drop]. *)
Lemma usa_map_figure_fetch_failed (e : exn) (s : Store) :
  usa_map_figure last_stop_color (inl e) s = (inl e, s).
Proof. reflexivity. Qed.

Lemma usa_map_figure_drop_failed (doc : JSON) (s : Store) (e : exn) :
  pd.drop (usa_counties_tbl s) [LInt 2311] = inl e →
  usa_map_figure last_stop_color (inr doc) s = (inl e, s).
Proof. intros Hd. unfold usa_map_figure. run. by rewrite Hd. Qed.

Lemma usa_map_figure_state (response : exn + JSON) (s : Store) :
  (usa_map_figure last_stop_color response s).2 =
    match response, pd.drop (usa_counties_tbl s) [LInt 2311] with
    | inr _, inr df' => store UsaCounties df' s
    | _, _ => s
    end.
Proof.
  destruct response as [e|doc]; [done|].
  unfold usa_map_figure. run.
  destruct (pd.drop (usa_counties_tbl s) [LInt 2311]) as [e|df']; [done|].
  cbn. unfold pd.getattr, pd.getitem.
  destruct (columns df' !! "fips"); [|done].
  by destruct (columns df' !! "cases/capita").
Qed.

Lemma usa_map_state (response : exn + JSON) (s : Store) :
  (usa_map last_stop_color response s).2 =
    (usa_map_figure last_stop_color response s).2.
Proof.
  unfold usa_map, bind.
  by destruct (usa_map_figure last_stop_color response s) as [[e|fig] s'].
Qed.

(** C1 (the code returns [None]): whatever the fetch gave and whatever the
    tables hold, a call of [usa_map] either raises or returns [None]; it
    never returns chart markup. *)
Theorem usa_map_returns_None (response : exn + JSON) (s : Store) :
  (∃ e, (usa_map last_stop_color response s).1 = inl e) ∨
  (usa_map last_stop_color response s).1 = inr None.
Proof.
  unfold usa_map, bind.
  destruct (usa_map_figure last_stop_color response s) as [[e|fig] s'].
  - left. by exists e.
  - by right.
Qed.

(** C8: for every county table that has the row labelled 2311 (and the two
    columns the map reads), [usa_map] builds its choropleth trace from the
    table without that row: the locations and the values are the cells of
    [fips] and [cases/capita] in the rows whose label is not 2311, in order,
    every one of them comes from such a row, and the table they are read
    from no longer has the label. *)
Theorem usa_map_excludes_row_2311 (doc : JSON) (s : Store)
    (fips cases_capita : list Scalar) :
  LInt 2311 ∈ index (usa_counties_tbl s) →
  columns (usa_counties_tbl s) !! "fips" = Some fips →
  columns (usa_counties_tbl s) !! "cases/capita" = Some cases_capita →
  ∃ fig t s',
    usa_map_figure last_stop_color (inr doc) s = (inr fig, s') ∧
    data fig = [go_Choroplethmapbox t] ∧
    ch_locations t
      = pd.rows_where (λ l, l ≠ LInt 2311) (index (usa_counties_tbl s)) fips ∧
    ch_z t
      = pd.rows_where (λ l, l ≠ LInt 2311) (index (usa_counties_tbl s)) cases_capita ∧
    (∀ v, v ∈ ch_locations t →
       ∃ (i : nat) l, index (usa_counties_tbl s) !! i = Some l ∧
                      fips !! i = Some v ∧ l ≠ LInt 2311) ∧
    (∀ v, v ∈ ch_z t →
       ∃ (i : nat) l, index (usa_counties_tbl s) !! i = Some l ∧
                      cases_capita !! i = Some v ∧ l ≠ LInt 2311) ∧
    (LInt 2311 ∉ index (usa_counties_tbl s')) ∧
    columns (usa_counties_tbl s') !! "fips" = Some (ch_locations t) ∧
    columns (usa_counties_tbl s') !! "cases/capita" = Some (ch_z t).
Proof.
  intros Hin Hf Hz.
  set (idx := index (usa_counties_tbl s)).
  assert (Hloc : pd.rows_where (λ l, l ∉ [LInt 2311]) idx fips
                 = pd.rows_where (λ l, l ≠ LInt 2311) idx fips)
    by (apply rows_where_ext, not_in_singleton_2311).
  assert (Hval : pd.rows_where (λ l, l ∉ [LInt 2311]) idx cases_capita
                 = pd.rows_where (λ l, l ≠ LInt 2311) idx cases_capita)
    by (apply rows_where_ext, not_in_singleton_2311).
  eexists _, _, _. split.
  { unfold usa_map_figure. run. rewrite (drop_2311_present _ Hin). cbn.
    unfold pd.getattr, pd.getitem. cbn.
    rewrite !lookup_fmap, Hf, Hz. cbn. fold idx. rewrite Hloc, Hval.
    reflexivity. }
  cbn. repeat split; try done.
  - intros v Hv. by apply rows_where_from_row in Hv.
  - intros v Hv. by apply rows_where_from_row in Hv.
  - intros Hmem. apply list_elem_of_filter in Hmem as [Hne _].
    apply Hne. by apply list_elem_of_singleton.
  - by rewrite lookup_fmap, Hf, <- Hloc.
  - by rewrite lookup_fmap, Hz, <- Hval.
Qed.

(** C10: for every county table whose index does not have the label 2311,
    [usa_map] raises the [KeyError] of the [drop] of line 130, naming the
    label; no figure is built and the table is as it was. *)
Theorem usa_map_KeyError_without_2311 (doc : JSON) (s : Store) :
  LInt 2311 ∉ index (usa_counties_tbl s) →
  usa_map_figure last_stop_color (inr doc) s
    = (inl (KeyError (Labels [LInt 2311])), s) ∧
  usa_map last_stop_color (inr doc) s
    = (inl (KeyError (Labels [LInt 2311])), s).
Proof.
  intros Hnin.
  assert (Hfig : usa_map_figure last_stop_color (inr doc) s
                 = (inl (KeyError (Labels [LInt 2311])), s))
    by (apply usa_map_figure_drop_failed; by apply drop_2311_absent).
  split; [done|]. unfold usa_map, bind. by rewrite Hfig.
Qed.

End usa_map_facts.

Section total_growth_facts.

Variable to_datetime : list Label → option (list Z).
Variable plot : Figure → PlotArgs → string.

(** The figure of [total_growth] when the index parses and the three columns
    are there. *)
Lemma total_growth_figure_ok (s : Store) (dates : list Z)
    (confirmed recovered deaths : list Scalar) :
  to_datetime (index (realtime_growth_tbl s)) = Some dates →
  columns (realtime_growth_tbl s) !! "Confirmed" = Some confirmed →
  columns (realtime_growth_tbl s) !! "Recovered" = Some recovered →
  columns (realtime_growth_tbl s) !! "Deaths" = Some deaths →
  total_growth_figure to_datetime s =
    (inr {| data :=
              [go_Scatter {| sc_x := dates; sc_y := confirmed; sc_name := "Confirmed";
                             sc_mode := "lines"; sc_line_width := 4;
                             sc_marker_color := None |};
               go_Scatter {| sc_x := dates; sc_y := deaths; sc_name := "Deaths";
                             sc_mode := "lines"; sc_line_width := 4;
                             sc_marker_color := Some "#f5365c" |};
               go_Scatter {| sc_x := dates; sc_y := recovered; sc_name := "Recovered";
                             sc_mode := "lines"; sc_line_width := 4;
                             sc_marker_color := None |}];
            layout := <["updatemenus" := AUpdatemenus total_growth_updatemenus]>
                        total_growth_layout |}, s).
Proof.
  intros Hd Hc Hr Hx. unfold total_growth_figure. run.
  unfold pd.getattr. by rewrite Hd, Hc, Hr, Hx.
Qed.

(** Conversely, a figure is only built from such a table. *)
Lemma total_growth_figure_inv (s s' : Store) (fig : Figure) :
  total_growth_figure to_datetime s = (inr fig, s') →
  ∃ dates confirmed recovered deaths,
    to_datetime (index (realtime_growth_tbl s)) = Some dates ∧
    columns (realtime_growth_tbl s) !! "Confirmed" = Some confirmed ∧
    columns (realtime_growth_tbl s) !! "Recovered" = Some recovered ∧
    columns (realtime_growth_tbl s) !! "Deaths" = Some deaths.
Proof.
  unfold total_growth_figure. run. unfold pd.getattr.
  destruct (to_datetime _) as [dates|]; [|done]. cbn.
  destruct (columns _ !! "Confirmed") as [c|]; [|done].
  destruct (columns _ !! "Recovered") as [r|]; [|done].
  destruct (columns _ !! "Deaths") as [d|]; [|done].
  intros _. by exists dates, c, r, d.
Qed.

(** C2: for every table whose index parses as dates and that has the three
    columns, the figure of [total_growth] has exactly three line series, added
    in the order Confirmed, Deaths, Recovered and named so; each carries the
    dates and its own column; the Deaths series has the marker colour
    [#f5365c] and the other two have none set.  The markup returned is the
    rendering of that figure. *)
Theorem total_growth_three_series (s : Store) (dates : list Z)
    (confirmed recovered deaths : list Scalar) :
  to_datetime (index (realtime_growth_tbl s)) = Some dates →
  columns (realtime_growth_tbl s) !! "Confirmed" = Some confirmed →
  columns (realtime_growth_tbl s) !! "Recovered" = Some recovered →
  columns (realtime_growth_tbl s) !! "Deaths" = Some deaths →
  ∃ fig,
    total_growth_figure to_datetime s = (inr fig, s) ∧
    total_growth to_datetime plot s = (inr (plot fig (plot_div_args true)), s) ∧
    data fig =
      [go_Scatter {| sc_x := dates; sc_y := confirmed; sc_name := "Confirmed";
                     sc_mode := "lines"; sc_line_width := 4;
                     sc_marker_color := None |};
       go_Scatter {| sc_x := dates; sc_y := deaths; sc_name := "Deaths";
                     sc_mode := "lines"; sc_line_width := 4;
                     sc_marker_color := Some "#f5365c" |};
       go_Scatter {| sc_x := dates; sc_y := recovered; sc_name := "Recovered";
                     sc_mode := "lines"; sc_line_width := 4;
                     sc_marker_color := None |}].
Proof.
  intros Hd Hc Hr Hx.
  pose proof (total_growth_figure_ok s dates confirmed recovered deaths Hd Hc Hr Hx) as Hfig.
  eexists. split; [exact Hfig|]. split; [|reflexivity].
  unfold total_growth, bind. by rewrite Hfig.
Qed.

(** C9, as the code has it: on a table whose index parses as dates,
    [total_growth] raises the
    error of a missing column, Python's [AttributeError] naming the column,
    as soon as one of Confirmed, Recovered, Deaths is not a column (the one
    named is the first missing one in reading order), nothing catches it and
    no markup is returned; when all three are columns it returns markup and
    raises nothing. *)
Theorem total_growth_missing_column (s : Store) (dates : list Z) :
  to_datetime (index (realtime_growth_tbl s)) = Some dates →
  ((∃ c, c ∈ total_growth_columns ∧ columns (realtime_growth_tbl s) !! c = None) →
   ∃ c, c ∈ total_growth_columns ∧
        columns (realtime_growth_tbl s) !! c = None ∧
        head (filter (λ n, columns (realtime_growth_tbl s) !! n = None)
                total_growth_columns) = Some c ∧
        total_growth to_datetime plot s = (inl (AttributeError c), s)) ∧
  ((∀ c, c ∈ total_growth_columns → is_Some (columns (realtime_growth_tbl s) !! c)) →
   ∃ markup, total_growth to_datetime plot s = (inr markup, s)).
Proof.
  intros Hd. unfold total_growth_columns.
  assert (Hrun : ∀ e, total_growth_figure to_datetime s = (inl e, s) →
                      total_growth to_datetime plot s = (inl e, s)).
  { intros e He. unfold total_growth, bind. by rewrite He. }
  split.
  - intros (c0 & Hin & Hnone).
    destruct (columns (realtime_growth_tbl s) !! "Confirmed") as [c|] eqn:Hc;
      [destruct (columns (realtime_growth_tbl s) !! "Recovered") as [r|] eqn:Hr;
        [destruct (columns (realtime_growth_tbl s) !! "Deaths") as [d|] eqn:Hx|]|].
    + exfalso. set_unfold in Hin. destruct Hin as [->|[->|[->|[]]]]; congruence.
    + exists "Deaths". split; [listed|]. split; [done|]. split.
      * rewrite filter_cons_False by (rewrite Hc; done).
        rewrite filter_cons_False by (rewrite Hr; done).
        by rewrite filter_cons_True by done.
      * apply Hrun. unfold total_growth_figure. run. unfold pd.getattr.
        by rewrite Hd, Hc, Hr, Hx.
    + exists "Recovered". split; [listed|]. split; [done|]. split.
      * rewrite filter_cons_False by (rewrite Hc; done).
        by rewrite filter_cons_True by done.
      * apply Hrun. unfold total_growth_figure. run. unfold pd.getattr.
        by rewrite Hd, Hc, Hr.
    + exists "Confirmed". split; [listed|]. split; [done|]. split.
      * by rewrite filter_cons_True by done.
      * apply Hrun. unfold total_growth_figure. run. unfold pd.getattr.
        by rewrite Hd, Hc.
  - intros Hall.
    destruct (Hall "Confirmed") as [c Hc]; [listed|].
    destruct (Hall "Recovered") as [r Hr]; [listed|].
    destruct (Hall "Deaths") as [d Hx]; [listed|].
    eexists. unfold total_growth, bind.
    by rewrite (total_growth_figure_ok s dates c r d Hd Hc Hr Hx).
Qed.

(** Either button of the dropdown writes [yaxis.type], and only that. *)
Lemma press_dropdown_button (b : MenuButton) (f : Figure) :
  b ∈ [Logarithmic; Linear] →
  ∃ v, (v = "log" ∨ v = "linear") ∧
       updatemenus.press b f =
         Some {| data := data f;
                 layout := <["yaxis.type" := APrim (PStr v)]> (layout f) |}.
Proof.
  intros Hb. apply elem_of_cons in Hb as [->|Hb];
    [|apply list_elem_of_singleton in Hb as ->].
  - exists "log". auto.
  - exists "linear". auto.
Qed.

Lemma press_all_app (bs1 bs2 : list MenuButton) (f : Figure) :
  updatemenus.press_all (bs1 ++ bs2) f =
    updatemenus.press_all bs1 f ≫= updatemenus.press_all bs2.
Proof.
  revert f. induction bs1 as [|b bs1 IH]; intros f; [done|].
  cbn. destruct (updatemenus.press b f) as [f'|]; [apply IH|done].
Qed.

(** Any number of choices among the two buttons leaves the traces and every
    layout key but [yaxis.type] as they were. *)
Lemma press_all_dropdown (bs : list MenuButton) (f : Figure) :
  Forall (λ b, b ∈ [Logarithmic; Linear]) bs →
  ∃ f', updatemenus.press_all bs f = Some f' ∧
        data f' = data f ∧
        (∀ k, k ≠ "yaxis.type" → layout f' !! k = layout f !! k) ∧
        (bs ≠ [] →
         layout f' !! "yaxis.type" = Some (APrim (PStr "log")) ∨
         layout f' !! "yaxis.type" = Some (APrim (PStr "linear"))).
Proof.
  intros Hbs. revert f. induction Hbs as [|b bs Hb Hbs IH]; intros f.
  - exists f. by repeat split.
  - destruct (press_dropdown_button b f Hb) as (v & Hv & Hpress).
    cbn. rewrite Hpress.
    destruct (IH {| data := data f;
                    layout := <["yaxis.type" := APrim (PStr v)]> (layout f) |})
      as (f' & Hall & Hdata & Hframe & Hmode).
    exists f'. split; [done|]. split; [done|]. split.
    + intros k Hk. rewrite (Hframe k Hk). cbn. by rewrite lookup_insert_ne.
    + intros _. destruct bs as [|b' bs'].
      * injection Hall as <-. cbn. rewrite lookup_insert_eq.
        destruct Hv as [->| ->]; auto.
      * by apply Hmode.
Qed.

(** C6: in the figure of [total_growth] the y axis is declared logarithmic.
    Its dropdown offers the two buttons Logarithmic and Linear, and whatever
    sequence of them is chosen, the result has the same traces (the x and y
    of the three series included) and the same layout except for
    [yaxis.type], which is then log or linear.  Choosing a button twice in a
    row is the same as choosing it once, on any figure and at any place of a
    sequence. *)
Theorem total_growth_toggle (s s' : Store) (fig : Figure) :
  total_growth_figure to_datetime s = (inr fig, s') →
  layout fig !! "yaxis.type" = Some (APrim (PStr "log")) ∧
  updatemenus.buttons fig = [Logarithmic; Linear] ∧
  (∀ bs, Forall (λ b, b ∈ updatemenus.buttons fig) bs →
     ∃ fig', updatemenus.press_all bs fig = Some fig' ∧
             data fig' = data fig ∧
             (∀ k, k ≠ "yaxis.type" → layout fig' !! k = layout fig !! k) ∧
             (layout fig' !! "yaxis.type" = Some (APrim (PStr "log")) ∨
              layout fig' !! "yaxis.type" = Some (APrim (PStr "linear")))) ∧
  (∀ b f, b ∈ updatemenus.buttons fig →
     ∃ f1, updatemenus.press b f = Some f1 ∧ updatemenus.press b f1 = Some f1) ∧
  (∀ b bs1 bs2, b ∈ updatemenus.buttons fig →
     updatemenus.press_all (bs1 ++ b :: b :: bs2) fig =
     updatemenus.press_all (bs1 ++ b :: bs2) fig).
Proof.
  intros Hfig.
  destruct (total_growth_figure_inv s s' fig Hfig)
    as (dates & c & r & d & Hd & Hc & Hr & Hx).
  rewrite (total_growth_figure_ok s dates c r d Hd Hc Hr Hx) in Hfig.
  injection Hfig as <- _.
  assert (Hlog : layout
            {| data := [] : list Trace;
               layout := <["updatemenus" := AUpdatemenus total_growth_updatemenus]>
                           total_growth_layout |} !! "yaxis.type"
          = Some (APrim (PStr "log"))) by (vm_compute; reflexivity).
  assert (Hbuttons : ∀ ts, updatemenus.buttons
            {| data := ts;
               layout := <["updatemenus" := AUpdatemenus total_growth_updatemenus]>
                           total_growth_layout |} = [Logarithmic; Linear]).
  { intros ts. unfold updatemenus.buttons. cbn [layout].
    by rewrite lookup_insert_eq. }
  assert (Hidem : ∀ b f, b ∈ [Logarithmic; Linear] →
            ∃ f1, updatemenus.press b f = Some f1 ∧ updatemenus.press b f1 = Some f1).
  { intros b f Hb.
    apply elem_of_cons in Hb as [->|Hb];
      [|apply list_elem_of_singleton in Hb as ->];
      (eexists; split; [reflexivity|]);
      unfold updatemenus.press, updatemenus.relayout; cbn;
      by rewrite insert_insert_eq. }
  rewrite Hbuttons. split; [exact Hlog|]. split; [done|]. split; [|split].
  - intros bs Hbs.
    match goal with
    | |- context [updatemenus.press_all bs ?f] =>
        destruct (press_all_dropdown bs f Hbs) as (f' & Hall & Hdata & Hframe & Hmode)
    end.
    exists f'. repeat split; try done.
    destruct bs as [|b bs']; [|by apply Hmode].
    injection Hall as <-. left. exact Hlog.
  - exact Hidem.
  - intros b bs1 bs2 Hb. rewrite !press_all_app.
    destruct (updatemenus.press_all bs1 _) as [f0|]; [|done]. cbn.
    destruct (Hidem b f0 Hb) as (f1 & H1 & H2). by rewrite H1, H2.
Qed.

End total_growth_facts.

(** ** Computations that only read *)

Section frame.

Lemma preserves_ret {A} (a : A) : preserves (ret a).
Proof. by intros s. Qed.

Lemma preserves_raise {A} (e : exn) : preserves (@raise A e).
Proof. by intros s. Qed.

Lemma preserves_lift {A} (r : exn + A) : preserves (lift r).
Proof. by destruct r; intros s. Qed.

Lemma preserves_read {A} (r : TableRef) (f : DataFrame → exn + A) :
  preserves (read r f).
Proof. by intros s. Qed.

Lemma preserves_bind {A B} (c : M A) (k : A → M B) :
  preserves c → (∀ a, preserves (k a)) → preserves (bind c k).
Proof.
  intros Hc Hk s. unfold bind. specialize (Hc s).
  destruct (c s) as [[e|a] s0]; cbn in *; subst s0; [done|apply Hk].
Qed.

Lemma preserves_if {A} (b : bool) (c1 c2 : M A) :
  preserves c1 → preserves c2 → preserves (if b then c1 else c2).
Proof. by destruct b. Qed.

End frame.

(** Going through a computation made of reads. *)
Ltac frame :=
  unfold getdata.realtime_growth, getdata.daily_confirmed, getdata.daily_deaths,
    getdata.daily_report, getdata.usa_counties;
  repeat first
    [ apply preserves_ret | apply preserves_raise | apply preserves_lift
    | apply preserves_read | apply preserves_if
    | apply preserves_bind; [|intros ?]
    | progress cbv zeta ].

Section daily_growth_facts.

Variable plot : Figure → PlotArgs → string.

(** [df[['date', 'World']]] on a frame that has both columns. *)
Lemma getitem_list_date_World (df : DataFrame) (date World : list Scalar) :
  columns df !! "date" = Some date →
  columns df !! "World" = Some World →
  ∃ df', pd.getitem_list df ["date"; "World"] = inr df' ∧
         index df' = index df ∧
         columns df' !! "date" = Some date ∧
         columns df' !! "World" = Some World.
Proof.
  intros Hd Hw. unfold pd.getitem_list.
  rewrite filter_cons_False by (rewrite Hd; done).
  rewrite filter_cons_False by (rewrite Hw; done).
  rewrite filter_nil. eexists. split; [reflexivity|]. cbn.
  split; [done|].
  split; apply map_lookup_filter_Some; (split; [done|]); cbn; listed.
Qed.

(** The layout of every figure [daily_growth] builds. *)
Lemma daily_growth_figure_layout (s s' : Store) (fig : Figure) :
  daily_growth_figure s = (inr fig, s') →
  layout fig =
    <["yaxis.gridcolor" := APrim (PStr "#fff")]>
      (<["xaxis.rangeselector.buttons" := ARangeButtons daily_growth_rangeselector]>
         daily_growth_layout).
Proof.
  unfold daily_growth_figure. run.
  destruct (pd.getitem_list (daily_confirmed_tbl s) _) as [e|dc]; [done|].
  destruct (pd.getitem_list (daily_deaths_tbl s) _) as [e|dd]; [done|].
  destruct (pd.getattr dd "date") as [e|x1]; [done|].
  destruct (pd.getattr dd "World") as [e|y1]; [done|].
  destruct (pd.getattr dc "date") as [e|x2]; [done|].
  destruct (pd.getattr dc "World") as [e|y2]; [done|].
  by intros [= <- _].
Qed.

(** The range selector of every figure [daily_growth] builds: the four
    presets, in the order the source lists them. *)
Lemma daily_growth_presets (s s' : Store) (fig : Figure) :
  daily_growth_figure s = (inr fig, s') →
  layout fig !! "xaxis.rangeselector.buttons" =
    Some (ARangeButtons
            [{| rb_count := Some 7; rb_label := "W"; rb_step := "day";
                rb_stepmode := Some "backward" |};
             {| rb_count := Some 1; rb_label := "M"; rb_step := "month";
                rb_stepmode := Some "backward" |};
             {| rb_count := Some 3; rb_label := "3M"; rb_step := "month";
                rb_stepmode := Some "backward" |};
             {| rb_count := None; rb_label := "T"; rb_step := "all";
                rb_stepmode := None |}]).
Proof.
  intros Hfig. rewrite (daily_growth_figure_layout _ _ _ Hfig).
  rewrite lookup_insert_ne by done. by rewrite lookup_insert_eq.
Qed.

(** C4: for every pair of daily tables that have the columns [date] and
    [World], the figure of [daily_growth] has two bar series, Cases first and
    Deaths after it; Cases starts as [legendonly], which is not drawn, and
    Deaths has no [visible] set, which is drawn; the x and y of each series
    are the [date] and [World] columns of its table as they are, and writing
    the [visible] flag of either series changes neither. *)
Theorem daily_growth_series (s : Store)
    (cases_date cases_World deaths_date deaths_World : list Scalar) :
  columns (daily_confirmed_tbl s) !! "date" = Some cases_date →
  columns (daily_confirmed_tbl s) !! "World" = Some cases_World →
  columns (daily_deaths_tbl s) !! "date" = Some deaths_date →
  columns (daily_deaths_tbl s) !! "World" = Some deaths_World →
  ∃ fig cases deaths,
    daily_growth_figure s = (inr fig, s) ∧
    daily_growth plot s = (inr (plot fig (plot_div_args true)), s) ∧
    data fig = [go_Bar cases; go_Bar deaths] ∧
    bar_name cases = "Cases" ∧ bar_name deaths = "Deaths" ∧
    bar_visible cases = Some legendonly ∧
    initially_drawn (bar_visible cases) = false ∧
    bar_visible deaths = None ∧
    initially_drawn (bar_visible deaths) = true ∧
    bar_x cases = cases_date ∧ bar_y cases = cases_World ∧
    bar_x deaths = deaths_date ∧ bar_y deaths = deaths_World ∧
    (∀ v t, t ∈ [cases; deaths] →
       bar_x (bar_set_visible v t) = bar_x t ∧
       bar_y (bar_set_visible v t) = bar_y t).
Proof.
  intros Hcd Hcw Hdd Hdw.
  destruct (getitem_list_date_World _ _ _ Hcd Hcw) as (dc & Hdc & _ & Hdc1 & Hdc2).
  destruct (getitem_list_date_World _ _ _ Hdd Hdw) as (dd & Hddf & _ & Hdd1 & Hdd2).
  assert (Hfig : ∃ fig,
    daily_growth_figure s = (inr fig, s) ∧
    data fig =
      [go_Bar {| bar_x := cases_date; bar_y := cases_World; bar_name := "Cases";
                 bar_marker_color := None; bar_visible := Some legendonly |};
       go_Bar {| bar_x := deaths_date; bar_y := deaths_World; bar_name := "Deaths";
                 bar_marker_color := Some "#f5365c"; bar_visible := None |}]).
  { eexists. split.
    - unfold daily_growth_figure. run. rewrite Hdc, Hddf. cbn.
      unfold pd.getattr. rewrite Hdd1, Hdd2, Hdc1, Hdc2. reflexivity.
    - reflexivity. }
  destruct Hfig as (fig & Hfig & Hdata).
  eexists fig, _, _. split; [exact Hfig|]. split.
  { unfold daily_growth, bind. by rewrite Hfig. }
  split; [exact Hdata|]. cbn. by repeat split.
Qed.

End daily_growth_facts.

Section world_map_facts.

(** [px.scatter_mapbox] only reads its frame. *)
Lemma scatter_mapbox_preserves (df : TableRef) (lat lon color size hover_name : string)
    (hover_data : list string) (labels : list (string * string))
    (zoom : Prim) (center : Prim * Prim) (height : Z) :
  preserves (px.scatter_mapbox df lat lon color size hover_name hover_data labels
               zoom center height).
Proof. unfold px.scatter_mapbox. frame. Qed.

(** A figure of [world_map] is the one bubble trace whose sizes and colours
    are both the [Confirmed] column. *)
Lemma world_map_figure_inv (s s' : Store) (fig : Figure) :
  world_map_figure s = (inr fig, s') →
  ∃ confirmed t,
    columns (daily_report_tbl s) !! "Confirmed" = Some confirmed ∧
    data fig = [go_Scattermapbox t] ∧
    sm_marker_size t = confirmed ∧
    sm_marker_color t = ColorArray confirmed.
Proof.
  unfold world_map_figure, px.scatter_mapbox. run.
  cbn [px.column_list]. unfold px.column.
  destruct (columns (daily_report_tbl s) !! "Lat") as [lat|]; [|done].
  destruct (columns (daily_report_tbl s) !! "Long_") as [lon|]; [|done].
  destruct (columns (daily_report_tbl s) !! "Confirmed") as [confirmed|]; [|done].
  destruct (columns (daily_report_tbl s) !! "Country_Region") as [names|]; [|done].
  destruct (columns (daily_report_tbl s) !! "Combined_Key") as [keys|]; [|done].
  destruct (forallb px.is_number confirmed); [|done].
  intros [= <- _]. eexists _, _. cbn. split; [reflexivity|].
  split; [reflexivity|]. by split.
Qed.

(** C7: in every figure [world_map] builds, the size value and the colour
    value of the bubble of a row are both that row's [Confirmed] value; so
    for two rows with counts [c1 <= c2] the sizes are in the same order and
    so are the colour values. *)
Theorem world_map_size_color_monotone (s s' : Store) (fig : Figure) :
  world_map_figure s = (inr fig, s') →
  ∃ confirmed t,
    columns (daily_report_tbl s) !! "Confirmed" = Some confirmed ∧
    data fig = [go_Scattermapbox t] ∧
    (∀ i : nat, bubble_size t i = confirmed !! i ∧ bubble_color t i = confirmed !! i) ∧
    ∀ (i j : nat) (c1 c2 : Z),
      confirmed !! i = Some (SInt c1) →
      confirmed !! j = Some (SInt c2) →
      (c1 ≤ c2)%Z →
      ∃ z1 z2 k1 k2,
        bubble_size t i = Some (SInt z1) ∧ bubble_size t j = Some (SInt z2) ∧
        (z1 ≤ z2)%Z ∧
        bubble_color t i = Some (SInt k1) ∧ bubble_color t j = Some (SInt k2) ∧
        (k1 ≤ k2)%Z.
Proof.
  intros Hfig.
  destruct (world_map_figure_inv s s' fig Hfig) as (confirmed & t & Hc & Hdata & Hsz & Hcol).
  exists confirmed, t. split; [done|]. split; [done|].
  unfold bubble_size, bubble_color. rewrite Hsz, Hcol. split; [done|].
  intros i j c1 c2 Hi Hj Hle. exists c1, c2, c1, c2. by repeat split.
Qed.

End world_map_facts.

Section tables_after_a_call.

Variable to_datetime : list Label → option (list Z).
Variable plot : Figure → PlotArgs → string.
Variable last_stop_color : string.

Lemma total_growth_preserves : preserves (total_growth to_datetime plot).
Proof. unfold total_growth, total_growth_figure. frame. Qed.

Lemma daily_growth_preserves : preserves (daily_growth plot).
Proof. unfold daily_growth, daily_growth_figure. frame. Qed.

Lemma world_map_preserves : preserves (world_map plot).
Proof.
  unfold world_map, world_map_figure. frame.
Qed.

(** C3, as the code has it: [total_growth], [daily_growth] and [world_map]
    leave every table as it was, whether they return or raise.  [usa_map]
    does not: when the fetch succeeded and the county table has the label
    2311, the county table itself loses the rows with that label (index and
    every column), and the other four tables stay; in every other case all
    tables are as they were. *)
Theorem tables_after_call (response : exn + JSON) (s : Store) :
  (total_growth to_datetime plot s).2 = s ∧
  (daily_growth plot s).2 = s ∧
  (world_map plot s).2 = s ∧
  (usa_map last_stop_color response s).2 =
    match response with
    | inl _ => s
    | inr _ =>
        if decide (LInt 2311 ∈ index (usa_counties_tbl s)) then
          store UsaCounties
            {| index := filter (λ l, l ≠ LInt 2311) (index (usa_counties_tbl s));
               columns := pd.rows_where (λ l, l ≠ LInt 2311)
                            (index (usa_counties_tbl s))
                            <$> columns (usa_counties_tbl s) |}
            s
        else s
    end.
Proof.
  split; [apply total_growth_preserves|].
  split; [apply daily_growth_preserves|].
  split; [apply world_map_preserves|].
  rewrite usa_map_state, usa_map_figure_state.
  destruct response as [e|doc]; [done|].
  case_decide as Hin.
  - rewrite (drop_2311_present _ Hin). do 2 f_equal.
    + apply list_filter_iff, not_in_singleton_2311.
    + apply map_fmap_ext. intros k col _.
      apply rows_where_ext, not_in_singleton_2311.
  - by rewrite (drop_2311_absent _ Hin).
Qed.

End tables_after_a_call.

(** * The theorems at the sample tables *)

Example total_growth_sample :
  total_growth sample.to_datetime sample.plot sample.tables
    = (inr "<div></div>", sample.tables).
Proof. vm_compute. reflexivity. Qed.

(** [usa_map] on the sample: the figure is built, nothing is returned. *)
Example usa_map_sample :
  (usa_map sample.last_stop_color (inr sample.boundaries) sample.tables).1 = inr None.
Proof. vm_compute. reflexivity. Qed.

Example usa_map_sample_locations :
  ∃ fig t s',
    usa_map_figure sample.last_stop_color (inr sample.boundaries) sample.tables
      = (inr fig, s') ∧
    data fig = [go_Choroplethmapbox t] ∧
    ch_locations t = [SStr "46099"; SStr "46103"].
Proof. eexists _, _, _. vm_compute. done. Qed.

Lemma total_growth_three_series_witness :
  ∃ fig,
    total_growth_figure sample.to_datetime sample.tables = (inr fig, sample.tables) ∧
    total_growth sample.to_datetime sample.plot sample.tables
      = (inr (sample.plot fig (plot_div_args true)), sample.tables) ∧
    data fig =
      [go_Scatter {| sc_x := [1579651200000000000; 1579737600000000000;
                              1579824000000000000];
                     sc_y := [SInt 555; SInt 654; SInt 941]; sc_name := "Confirmed";
                     sc_mode := "lines"; sc_line_width := 4;
                     sc_marker_color := None |};
       go_Scatter {| sc_x := [1579651200000000000; 1579737600000000000;
                              1579824000000000000];
                     sc_y := [SInt 17; SInt 18; SInt 26]; sc_name := "Deaths";
                     sc_mode := "lines"; sc_line_width := 4;
                     sc_marker_color := Some "#f5365c" |};
       go_Scatter {| sc_x := [1579651200000000000; 1579737600000000000;
                              1579824000000000000];
                     sc_y := [SInt 28; SInt 30; SInt 36]; sc_name := "Recovered";
                     sc_mode := "lines"; sc_line_width := 4;
                     sc_marker_color := None |}].
Proof.
  apply (total_growth_three_series sample.to_datetime sample.plot sample.tables);
    vm_compute; reflexivity.
Defined.

Lemma total_growth_missing_column_witness :
  (∃ c, c ∈ total_growth_columns ∧
        columns (realtime_growth_tbl sample.tables_no_Recovered) !! c = None ∧
        head (filter (λ n, columns (realtime_growth_tbl sample.tables_no_Recovered) !! n
                           = None) total_growth_columns) = Some c ∧
        total_growth sample.to_datetime sample.plot sample.tables_no_Recovered
          = (inl (AttributeError c), sample.tables_no_Recovered)) ∧
  (∃ markup, total_growth sample.to_datetime sample.plot sample.tables
               = (inr markup, sample.tables)).
Proof.
  split.
  - apply (total_growth_missing_column sample.to_datetime sample.plot
             sample.tables_no_Recovered
             [1579651200000000000; 1579737600000000000; 1579824000000000000]).
    + vm_compute. reflexivity.
    + exists "Recovered". split; [listed|]. vm_compute. reflexivity.
  - apply (total_growth_missing_column sample.to_datetime sample.plot sample.tables
             [1579651200000000000; 1579737600000000000; 1579824000000000000]).
    + vm_compute. reflexivity.
    + intros c Hc. unfold total_growth_columns in Hc.
      apply elem_of_cons in Hc as [->|Hc]; [by eexists|].
      apply elem_of_cons in Hc as [->|Hc]; [by eexists|].
      apply list_elem_of_singleton in Hc as ->. by eexists.
Defined.

(** C9 as the claim has it fails when the index is not one of dates: this
    growth table has no [Deaths] column, yet what [total_growth] raises is
    the [ValueError] of the conversion of line 23, not the error of a
    missing column. *)
Lemma missing_column_masked_by_index :
  columns (realtime_growth_tbl sample.tables_bad_index) !! "Deaths" = None ∧
  total_growth sample.to_datetime sample.plot sample.tables_bad_index
    = (inl (ValueError "to_datetime"), sample.tables_bad_index) ∧
  ∀ c, total_growth sample.to_datetime sample.plot sample.tables_bad_index
         ≠ (inl (AttributeError c), sample.tables_bad_index).
Proof.
  split; [vm_compute; reflexivity|].
  assert (Hrun : total_growth sample.to_datetime sample.plot sample.tables_bad_index
                 = (inl (ValueError "to_datetime"), sample.tables_bad_index))
    by (vm_compute; reflexivity).
  split; [exact Hrun|].
  intros c Hc. rewrite Hrun in Hc. discriminate Hc.
Qed.

Lemma total_growth_toggle_witness :
  ∃ fig,
    total_growth_figure sample.to_datetime sample.tables = (inr fig, sample.tables) ∧
    layout fig !! "yaxis.type" = Some (APrim (PStr "log")) ∧
    updatemenus.buttons fig = [Logarithmic; Linear] ∧
    (∃ fig', updatemenus.press_all [Linear; Linear; Logarithmic; Linear] fig = Some fig' ∧
             data fig' = data fig ∧
             layout fig' !! "height" = layout fig !! "height") ∧
    updatemenus.press_all [Logarithmic; Linear; Linear] fig
      = updatemenus.press_all [Logarithmic; Linear] fig.
Proof.
  pose proof (total_growth_figure_ok sample.to_datetime sample.tables
                [1579651200000000000; 1579737600000000000; 1579824000000000000]
                [SInt 555; SInt 654; SInt 941] [SInt 28; SInt 30; SInt 36]
                [SInt 17; SInt 18; SInt 26] eq_refl eq_refl eq_refl eq_refl) as Hfig.
  destruct (total_growth_toggle sample.to_datetime _ _ _ Hfig)
    as (Hlog & Hbuttons & Hseq & _ & Htwice).
  eexists. split; [exact Hfig|]. split; [exact Hlog|]. split; [exact Hbuttons|].
  split.
  - destruct (Hseq [Linear; Linear; Logarithmic; Linear]) as (fig' & Hp & Hdata & Hframe & _).
    + rewrite Hbuttons. repeat constructor; listed.
    + exists fig'. split; [exact Hp|]. split; [exact Hdata|]. by apply Hframe.
  - apply (Htwice Linear [Logarithmic] []). rewrite Hbuttons. listed.
Defined.

Lemma daily_growth_series_witness :
  ∃ fig cases deaths,
    daily_growth_figure sample.tables = (inr fig, sample.tables) ∧
    daily_growth sample.plot sample.tables
      = (inr (sample.plot fig (plot_div_args true)), sample.tables) ∧
    data fig = [go_Bar cases; go_Bar deaths] ∧
    bar_name cases = "Cases" ∧ bar_name deaths = "Deaths" ∧
    bar_visible cases = Some legendonly ∧
    initially_drawn (bar_visible cases) = false ∧
    bar_visible deaths = None ∧
    initially_drawn (bar_visible deaths) = true ∧
    bar_x cases = [SStr "2020-01-23"; SStr "2020-01-24"] ∧
    bar_y cases = [SInt 99; SInt 287] ∧
    bar_x deaths = [SStr "2020-01-23"; SStr "2020-01-24"] ∧
    bar_y deaths = [SInt 1; SInt 8] ∧
    (∀ v t, t ∈ [cases; deaths] →
       bar_x (bar_set_visible v t) = bar_x t ∧
       bar_y (bar_set_visible v t) = bar_y t).
Proof.
  apply (daily_growth_series sample.plot sample.tables); vm_compute; reflexivity.
Defined.

Lemma world_map_size_color_monotone_witness :
  ∃ fig confirmed t,
    world_map_figure sample.tables = (inr fig, sample.tables) ∧
    columns (daily_report_tbl sample.tables) !! "Confirmed" = Some confirmed ∧
    data fig = [go_Scattermapbox t] ∧
    (∀ i : nat, bubble_size t i = confirmed !! i ∧ bubble_color t i = confirmed !! i) ∧
    ∃ z1 z2 k1 k2,
      bubble_size t 0 = Some (SInt z1) ∧ bubble_size t 1 = Some (SInt z2) ∧
      (z1 ≤ z2)%Z ∧
      bubble_color t 0 = Some (SInt k1) ∧ bubble_color t 1 = Some (SInt k2) ∧
      (k1 ≤ k2)%Z.
Proof.
  assert (∃ fig, world_map_figure sample.tables = (inr fig, sample.tables))
    as [fig Hrun] by (eexists; vm_compute; reflexivity).
  destruct (world_map_size_color_monotone sample.tables sample.tables fig Hrun)
    as (confirmed & t & Hc & Hdata & Hval & Hmono).
  exists fig, confirmed, t.
  split; [exact Hrun|]. split; [exact Hc|]. split; [exact Hdata|]. split; [exact Hval|].
  assert (confirmed = [SInt 120; SInt 4300]) as ->
    by (vm_compute in Hc; injection Hc as <-; reflexivity).
  apply (Hmono 0%nat 1%nat 120 4300); [reflexivity|reflexivity|].
  vm_compute. discriminate.
Defined.

Lemma usa_map_excludes_row_2311_witness :
  ∃ fig t s',
    usa_map_figure sample.last_stop_color (inr sample.boundaries) sample.tables
      = (inr fig, s') ∧
    data fig = [go_Choroplethmapbox t] ∧
    ch_locations t = [SStr "46099"; SStr "46103"] ∧
    (LInt 2311 ∉ index (usa_counties_tbl s')) ∧
    columns (usa_counties_tbl s') !! "fips" = Some (ch_locations t) ∧
    columns (usa_counties_tbl s') !! "cases/capita" = Some (ch_z t).
Proof.
  destruct (usa_map_excludes_row_2311 sample.last_stop_color sample.boundaries
              sample.tables
              [SStr "46099"; SStr "46102"; SStr "46103"]
              [SFloat 0x3F50624DD2F1A9FC; SFloat 0x3F60624DD2F1A9FC;
               SFloat 0x3F689374BC6A7EFA])
    as (fig & t & s' & Hrun & Hdata & Hloc & _ & _ & _ & Hnot & Hf & Hz).
  - unfold sample.tables, sample.counties. cbn. listed.
  - vm_compute. reflexivity.
  - vm_compute. reflexivity.
  - exists fig, t, s'. split; [exact Hrun|]. split; [exact Hdata|].
    split; [rewrite Hloc; vm_compute; reflexivity|].
    split; [exact Hnot|]. split; [exact Hf|exact Hz].
Defined.

Lemma usa_map_KeyError_without_2311_witness :
  usa_map_figure sample.last_stop_color (inr sample.boundaries) sample.tables_renumbered
    = (inl (KeyError (Labels [LInt 2311])), sample.tables_renumbered) ∧
  usa_map sample.last_stop_color (inr sample.boundaries) sample.tables_renumbered
    = (inl (KeyError (Labels [LInt 2311])), sample.tables_renumbered).
Proof.
  apply (usa_map_KeyError_without_2311 sample.last_stop_color sample.boundaries
           sample.tables_renumbered).
  unfold sample.tables_renumbered, sample.counties_renumbered. cbn.
  intros Hin. repeat (apply elem_of_cons in Hin as [Hin|Hin]; [discriminate Hin|]).
  by apply elem_of_nil in Hin.
Defined.

(** C3 as the claim has it fails for [usa_map]: after the call on the sample
    the county table has lost its row 2311, so the store is not what it
    was. *)
Lemma usa_map_mutates_its_table :
  index (usa_counties_tbl sample.tables) = [LInt 2310; LInt 2311; LInt 2312] ∧
  index (usa_counties_tbl
           (usa_map sample.last_stop_color (inr sample.boundaries) sample.tables).2)
    = [LInt 2310; LInt 2312] ∧
  (usa_map sample.last_stop_color (inr sample.boundaries) sample.tables).2
    ≠ sample.tables.
Proof.
  split; [reflexivity|]. split; [vm_compute; reflexivity|].
  intros Heq.
  apply (f_equal (λ s, index (usa_counties_tbl s))) in Heq.
  vm_compute in Heq. discriminate Heq.
Qed.

(** * Further properties of the builders *)

Section more_pandas_facts.

(** With one cell per row, [rows_where] keeps as many cells as there are
    rows whose label passes. *)
Lemma rows_where_length {A} (P : Label → Prop) `{!∀ l, Decision (P l)}
    (idx : list Label) (col : list A) :
  length col = length idx →
  length (pd.rows_where P idx col) = length (filter P idx).
Proof.
  unfold pd.rows_where. revert col.
  induction idx as [|l idx IH]; intros [|c col] Hlen; try done.
  injection Hlen as Hlen. cbn [zip zip_with].
  rewrite !filter_cons. cbn [fst].
  destruct (decide (P l)); cbn; rewrite IH; done.
Qed.

(** The rows that go and the rows that stay make up the index. *)
Lemma filter_length_split {A} (P : A → Prop) `{!∀ x, Decision (P x)} (l : list A) :
  (length (filter (λ x, ¬ P x) l) + length (filter P l) = length l)%nat.
Proof.
  induction l as [|x l IH]; [done|].
  rewrite !filter_cons. destruct (decide (P x)) as [HP|HP].
  - rewrite decide_False by (intros Hn; by apply Hn). cbn. lia.
  - rewrite decide_True by done. cbn. lia.
Qed.

(** The frame [drop] leaves is well formed when the frame was. *)
Lemma drop_2311_well_formed (df : DataFrame) :
  well_formed df →
  well_formed
    {| index := filter (λ l, l ∉ [LInt 2311]) (index df);
       columns := pd.rows_where (λ l, l ∉ [LInt 2311]) (index df) <$> columns df |}.
Proof.
  intros Hwf name col. cbn. rewrite lookup_fmap.
  destruct (columns df !! name) as [col0|] eqn:Hcol; [|done].
  intros [= <-]. apply rows_where_length. by apply (Hwf name).
Qed.

End more_pandas_facts.

Section more_usa_map_facts.

Variable last_stop_color : string.

(** [usa_map_figure] once the fetch succeeded and the label 2311 is in the
    index: the rows are dropped, then [fips] is read, then [cases/capita]. *)
Lemma usa_map_figure_present (doc : JSON) (s : Store) :
  LInt 2311 ∈ index (usa_counties_tbl s) →
  usa_map_figure last_stop_color (inr doc) s =
    (match columns (usa_counties_tbl s) !! "fips",
           columns (usa_counties_tbl s) !! "cases/capita" with
     | None, _ => inl (AttributeError "fips")
     | Some _, None => inl (KeyError (Columns ["cases/capita"]))
     | Some fips, Some cases_capita =>
         inr (update_layout
                {| data :=
                     [go_Choroplethmapbox
                        {| ch_geojson := doc;
                           ch_locations :=
                             pd.rows_where (λ l, l ∉ [LInt 2311])
                               (index (usa_counties_tbl s)) fips;
                           ch_z :=
                             pd.rows_where (λ l, l ∉ [LInt 2311])
                               (index (usa_counties_tbl s)) cases_capita;
                           ch_marker_opacity := PDec 8 (-1);
                           ch_marker_line_width := 0;
                           ch_colorscale :=
                             [(PInt 0, "#FFE9E6"); (PDec 15 (-2), "#DA3A03");
                              (PDec 50 (-2), "#331112");
                              (PDec 10 (-1), last_stop_color)] |}];
                   layout := ∅ |}
                [("mapbox.style", APrim (PStr "carto-positron"));
                 ("mapbox.zoom", APrim (PDec 275 (-2)));
                 ("mapbox.center.lat", APrim (PDec 370902 (-4)));
                 ("mapbox.center.lon", APrim (PDec (-957129) (-4)));
                 ("margin.t", APrim (PInt 0)); ("margin.l", APrim (PInt 0));
                 ("margin.r", APrim (PInt 0)); ("margin.b", APrim (PInt 0))])
     end,
     store UsaCounties
       {| index := filter (λ l, l ∉ [LInt 2311]) (index (usa_counties_tbl s));
          columns := pd.rows_where (λ l, l ∉ [LInt 2311]) (index (usa_counties_tbl s))
                       <$> columns (usa_counties_tbl s) |} s).
Proof.
  intros Hin. unfold usa_map_figure. run. rewrite (drop_2311_present _ Hin). cbn.
  unfold pd.getattr, pd.getitem. cbn. rewrite !lookup_fmap.
  destruct (columns (usa_counties_tbl s) !! "fips") as [fips|]; [|done].
  by destruct (columns (usa_counties_tbl s) !! "cases/capita") as [z|].
Qed.

(** A figure is only built when the label was there and both columns are. *)
Lemma usa_map_figure_inv (doc : JSON) (s s' : Store) (fig : Figure) :
  usa_map_figure last_stop_color (inr doc) s = (inr fig, s') →
  LInt 2311 ∈ index (usa_counties_tbl s) ∧
  ∃ fips cases_capita,
    columns (usa_counties_tbl s) !! "fips" = Some fips ∧
    columns (usa_counties_tbl s) !! "cases/capita" = Some cases_capita.
Proof.
  intros Hrun.
  destruct (decide (LInt 2311 ∈ index (usa_counties_tbl s))) as [Hin|Hnin].
  - split; [done|]. rewrite (usa_map_figure_present _ _ Hin) in Hrun.
    destruct (columns (usa_counties_tbl s) !! "fips") as [fips|]; [|done].
    destruct (columns (usa_counties_tbl s) !! "cases/capita") as [z|]; [|done].
    by exists fips, z.
  - rewrite (usa_map_figure_drop_failed _ _ _ _ (drop_2311_absent _ Hnin)) in Hrun.
    done.
Qed.

(** [usa_map] has the outcome of [usa_map_figure], with [None] for the
    figure. *)
Lemma usa_map_of_figure (response : exn + JSON) (s : Store) :
  usa_map last_stop_color response s =
    (match (usa_map_figure last_stop_color response s).1 with
     | inl e => inl e
     | inr _ => inr None
     end, (usa_map_figure last_stop_color response s).2).
Proof.
  unfold usa_map, bind.
  by destruct (usa_map_figure last_stop_color response s) as [[e|fig] s'].
Qed.

(** X1: The county table stays well formed through a call of [usa_map], whatever
    the call does: the rows it drops are dropped from the index and from
    every column alike. *)
Theorem usa_map_keeps_well_formed (response : exn + JSON) (s : Store) :
  well_formed (usa_counties_tbl s) →
  well_formed (usa_counties_tbl (usa_map last_stop_color response s).2).
Proof.
  intros Hwf. rewrite usa_map_state, usa_map_figure_state.
  destruct response as [e|doc]; [done|].
  destruct (decide (LInt 2311 ∈ index (usa_counties_tbl s))) as [Hin|Hnin].
  - rewrite (drop_2311_present _ Hin). cbn. by apply drop_2311_well_formed.
  - by rewrite (drop_2311_absent _ Hnin).
Qed.

(** X2: On a well-formed county table, the figure of [usa_map] has one location
    and one value for every row the table is left with, and these are the
    rows of the table but for the ones labelled 2311. *)
Theorem usa_map_one_location_per_row (doc : JSON) (s s' : Store) (fig : Figure) :
  well_formed (usa_counties_tbl s) →
  usa_map_figure last_stop_color (inr doc) s = (inr fig, s') →
  ∃ t,
    data fig = [go_Choroplethmapbox t] ∧
    length (ch_locations t) = length (index (usa_counties_tbl s')) ∧
    length (ch_z t) = length (index (usa_counties_tbl s')) ∧
    (length (index (usa_counties_tbl s'))
     + length (filter (λ l, l = LInt 2311) (index (usa_counties_tbl s)))
     = length (index (usa_counties_tbl s)))%nat.
Proof.
  intros Hwf Hrun.
  destruct (usa_map_figure_inv _ _ _ _ Hrun) as (Hin & fips & z & Hf & Hz).
  rewrite (usa_map_figure_present _ _ Hin), Hf, Hz in Hrun.
  injection Hrun as <- <-. eexists. split; [reflexivity|]. cbn.
  split; [apply rows_where_length; by apply (Hwf "fips")|].
  split; [apply rows_where_length; by apply (Hwf "cases/capita")|].
  rewrite <- (filter_length_split (λ l, l = LInt 2311) (index (usa_counties_tbl s))).
  f_equal. f_equal. apply list_filter_iff. intros l. apply not_in_singleton_2311.
Qed.

(** X3: When the county table has the label 2311 but lacks a column the map
    reads, [usa_map] raises only after the drop: [AttributeError] for [fips],
    else [KeyError] for [cases/capita]; the table has lost the rows labelled
    2311 all the same, so it is no longer what it was. *)
Theorem usa_map_raises_after_drop (doc : JSON) (s : Store) :
  LInt 2311 ∈ index (usa_counties_tbl s) →
  columns (usa_counties_tbl s) !! "fips" = None ∨
  columns (usa_counties_tbl s) !! "cases/capita" = None →
  ∃ s',
    usa_map last_stop_color (inr doc) s =
      (inl (match columns (usa_counties_tbl s) !! "fips" with
            | None => AttributeError "fips"
            | Some _ => KeyError (Columns ["cases/capita"])
            end), s') ∧
    (LInt 2311 ∉ index (usa_counties_tbl s')) ∧
    s' ≠ s.
Proof.
  intros Hin Hmissing. eexists. split; [|split].
  - rewrite usa_map_of_figure, (usa_map_figure_present _ _ Hin). cbn [fst snd].
    destruct (columns (usa_counties_tbl s) !! "fips") as [fips|]; [|reflexivity].
    destruct Hmissing as [Hf|Hz]; [done|]. by rewrite Hz.
  - cbn. intros Hmem. apply list_elem_of_filter in Hmem as [Hne _].
    apply Hne. by apply list_elem_of_singleton.
  - intros Heq. apply (f_equal (λ s0, index (usa_counties_tbl s0))) in Heq.
    cbn in Heq. rewrite <- Heq in Hin.
    apply list_elem_of_filter in Hin as [Hne _].
    apply Hne. by apply list_elem_of_singleton.
Qed.

(** X4: On the table a call of [usa_map] has left, a further call raises the
    [KeyError] of the drop, whatever the first call did: the first call
    either removed the label 2311 or found none. *)
Theorem usa_map_second_call (doc doc' : JSON) (s : Store) :
  usa_map last_stop_color (inr doc')
    (usa_map last_stop_color (inr doc) s).2
  = (inl (KeyError (Labels [LInt 2311])),
     (usa_map last_stop_color (inr doc) s).2).
Proof.
  set (s1 := (usa_map last_stop_color (inr doc) s).2).
  assert (Hnin : LInt 2311 ∉ index (usa_counties_tbl s1)).
  { unfold s1. rewrite usa_map_state, usa_map_figure_state.
    destruct (decide (LInt 2311 ∈ index (usa_counties_tbl s))) as [Hin|Hnin].
    - rewrite (drop_2311_present _ Hin). cbn. intros Hmem.
      apply list_elem_of_filter in Hmem as [Hne _].
      apply Hne. by apply list_elem_of_singleton.
    - by rewrite (drop_2311_absent _ Hnin). }
  rewrite usa_map_of_figure.
  by rewrite (usa_map_figure_drop_failed _ _ _ _ (drop_2311_absent _ Hnin)).
Qed.

(** X5: [usa_map] reads the index and the columns [fips] and [cases/capita] of
    the county table and nothing else of the tables: on two stores that
    agree on these, it builds the same figure or raises the same error. *)
Theorem usa_map_reads_only (response : exn + JSON) (s1 s2 : Store) :
  index (usa_counties_tbl s1) = index (usa_counties_tbl s2) →
  columns (usa_counties_tbl s1) !! "fips" = columns (usa_counties_tbl s2) !! "fips" →
  columns (usa_counties_tbl s1) !! "cases/capita"
    = columns (usa_counties_tbl s2) !! "cases/capita" →
  (usa_map_figure last_stop_color response s1).1
    = (usa_map_figure last_stop_color response s2).1 ∧
  (usa_map last_stop_color response s1).1 = (usa_map last_stop_color response s2).1.
Proof.
  intros Hidx Hf Hz.
  assert (Hfig : (usa_map_figure last_stop_color response s1).1
                 = (usa_map_figure last_stop_color response s2).1).
  { destruct response as [e|doc]; [done|].
    destruct (decide (LInt 2311 ∈ index (usa_counties_tbl s1))) as [Hin|Hnin].
    - rewrite (usa_map_figure_present _ _ Hin).
      rewrite Hidx in Hin. rewrite (usa_map_figure_present _ _ Hin).
      cbn [fst]. by rewrite Hidx, Hf, Hz.
    - rewrite (usa_map_figure_drop_failed _ _ _ _ (drop_2311_absent _ Hnin)).
      rewrite Hidx in Hnin.
      by rewrite (usa_map_figure_drop_failed _ _ _ _ (drop_2311_absent _ Hnin)). }
  split; [done|]. rewrite !usa_map_of_figure. cbn [fst]. by rewrite Hfig.
Qed.

End more_usa_map_facts.

Section more_total_growth_facts.

Variable to_datetime : list Label → option (list Z).
Variable plot : Figure → PlotArgs → string.

(** [total_growth] has the outcome of [total_growth_figure], rendered. *)
Lemma total_growth_of_figure (s : Store) :
  total_growth to_datetime plot s =
    (match (total_growth_figure to_datetime s).1 with
     | inl e => inl e
     | inr fig => inr (plot fig (plot_div_args true))
     end, (total_growth_figure to_datetime s).2).
Proof.
  unfold total_growth, bind.
  by destruct (total_growth_figure to_datetime s) as [[e|fig] s'].
Qed.

(** The figure or the error of [total_growth_figure] is decided by the index
    and the three columns of the growth table. *)
Lemma total_growth_figure_reads (s1 s2 : Store) :
  index (realtime_growth_tbl s1) = index (realtime_growth_tbl s2) →
  (∀ c, c ∈ total_growth_columns →
     columns (realtime_growth_tbl s1) !! c = columns (realtime_growth_tbl s2) !! c) →
  (total_growth_figure to_datetime s1).1 = (total_growth_figure to_datetime s2).1.
Proof.
  intros Hidx Hcols. unfold total_growth_figure. run. unfold pd.getattr.
  rewrite Hidx.
  rewrite (Hcols "Confirmed") by (unfold total_growth_columns; listed).
  rewrite (Hcols "Recovered") by (unfold total_growth_columns; listed).
  rewrite (Hcols "Deaths") by (unfold total_growth_columns; listed).
  destruct (to_datetime _) as [dates|]; [|done]. cbn.
  destruct (columns _ !! "Confirmed") as [c|]; [|done].
  destruct (columns _ !! "Recovered") as [r|]; [|done].
  by destruct (columns _ !! "Deaths") as [d|].
Qed.

(** X7: When the index of the growth table does not convert to dates,
    [total_growth] raises the [ValueError] of the conversion (line 23) and
    nothing else happens: the columns are not looked at, so a missing column
    goes unreported, and no markup is returned. *)
Theorem total_growth_bad_index (s : Store) :
  to_datetime (index (realtime_growth_tbl s)) = None →
  ∃ what, total_growth to_datetime plot s = (inl (ValueError what), s).
Proof.
  intros Hd. eexists. rewrite total_growth_of_figure.
  unfold total_growth_figure. run. rewrite Hd. reflexivity.
Qed.

(** X8: [total_growth] reads the index and the columns Confirmed, Recovered and
    Deaths of the growth table and nothing else of the tables: on two stores
    that agree on these, it returns the same markup or raises the same
    error. *)
Theorem total_growth_reads_only (s1 s2 : Store) :
  index (realtime_growth_tbl s1) = index (realtime_growth_tbl s2) →
  (∀ c, c ∈ total_growth_columns →
     columns (realtime_growth_tbl s1) !! c = columns (realtime_growth_tbl s2) !! c) →
  (total_growth to_datetime plot s1).1 = (total_growth to_datetime plot s2).1.
Proof.
  intros Hidx Hcols. rewrite !total_growth_of_figure. cbn [fst].
  by rewrite (total_growth_figure_reads s1 s2 Hidx Hcols).
Qed.

End more_total_growth_facts.

Section more_daily_growth_facts.

Variable plot : Figure → PlotArgs → string.

(** The names of [daily_growth_columns] a frame lacks, by its two lookups. *)
Lemma missing_date_World (df : DataFrame) :
  filter (λ n, columns df !! n = None) daily_growth_columns =
    match columns df !! "date", columns df !! "World" with
    | None, None => ["date"; "World"]
    | None, Some _ => ["date"]
    | Some _, None => ["World"]
    | Some _, Some _ => []
    end.
Proof.
  unfold daily_growth_columns. rewrite !filter_cons, filter_nil.
  destruct (columns df !! "date"), (columns df !! "World"); done.
Qed.

(** [df[['date', 'World']]] on a frame that lacks one of them. *)
Lemma getitem_list_missing (df : DataFrame) (n : string) (ns : list string) :
  filter (λ n, columns df !! n = None) daily_growth_columns = n :: ns →
  pd.getitem_list df ["date"; "World"] = inl (KeyError (Columns (n :: ns))).
Proof. unfold pd.getitem_list, daily_growth_columns. by intros ->. Qed.

(** [daily_growth] has the outcome of [daily_growth_figure], rendered. *)
Lemma daily_growth_of_figure (s : Store) :
  daily_growth plot s =
    (match (daily_growth_figure s).1 with
     | inl e => inl e
     | inr fig => inr (plot fig (plot_div_args true))
     end, (daily_growth_figure s).2).
Proof.
  unfold daily_growth, bind.
  by destruct (daily_growth_figure s) as [[e|fig] s'].
Qed.

(** [daily_growth_figure], by the columns the two tables lack. *)
Lemma daily_growth_figure_run (s : Store) :
  daily_growth_figure s =
    (match filter (λ n, columns (daily_confirmed_tbl s) !! n = None) daily_growth_columns,
           filter (λ n, columns (daily_deaths_tbl s) !! n = None) daily_growth_columns with
     | n :: ns, _ => inl (KeyError (Columns (n :: ns)))
     | [], n :: ns => inl (KeyError (Columns (n :: ns)))
     | [], [] =>
         inr {| data :=
                  [go_Bar {| bar_x := default [] (columns (daily_confirmed_tbl s) !! "date");
                             bar_y := default [] (columns (daily_confirmed_tbl s) !! "World");
                             bar_name := "Cases"; bar_marker_color := None;
                             bar_visible := Some legendonly |};
                   go_Bar {| bar_x := default [] (columns (daily_deaths_tbl s) !! "date");
                             bar_y := default [] (columns (daily_deaths_tbl s) !! "World");
                             bar_name := "Deaths";
                             bar_marker_color := Some "#f5365c";
                             bar_visible := None |}];
                layout :=
                  <["yaxis.gridcolor" := APrim (PStr "#fff")]>
                    (<["xaxis.rangeselector.buttons" :=
                         ARangeButtons daily_growth_rangeselector]>
                       daily_growth_layout) |}
     end, s).
Proof.
  destruct (filter _ daily_growth_columns) as [|n ns] eqn:Hc.
  - destruct (filter (λ n, columns (daily_deaths_tbl s) !! n = None) daily_growth_columns)
      as [|n ns] eqn:Hd.
    + rewrite missing_date_World in Hc, Hd.
      destruct (columns (daily_confirmed_tbl s) !! "date") as [cd|] eqn:Hcd;
        destruct (columns (daily_confirmed_tbl s) !! "World") as [cw|] eqn:Hcw;
        try done.
      destruct (columns (daily_deaths_tbl s) !! "date") as [dd|] eqn:Hdd;
        destruct (columns (daily_deaths_tbl s) !! "World") as [dw|] eqn:Hdw;
        try done.
      destruct (getitem_list_date_World _ _ _ Hcd Hcw) as (dc & Hdc & _ & Hdc1 & Hdc2).
      destruct (getitem_list_date_World _ _ _ Hdd Hdw) as (df & Hdf & _ & Hdf1 & Hdf2).
      unfold daily_growth_figure. run. rewrite Hdc, Hdf. cbn.
      unfold pd.getattr. by rewrite Hdf1, Hdf2, Hdc1, Hdc2.
    + rewrite missing_date_World in Hc.
      destruct (columns (daily_confirmed_tbl s) !! "date") as [cd|] eqn:Hcd;
        destruct (columns (daily_confirmed_tbl s) !! "World") as [cw|] eqn:Hcw;
        try done.
      destruct (getitem_list_date_World _ _ _ Hcd Hcw) as (dc & Hdc & _).
      unfold daily_growth_figure. run.
      by rewrite Hdc, (getitem_list_missing _ _ _ Hd).
  - unfold daily_growth_figure. run.
    by rewrite (getitem_list_missing _ _ _ Hc).
Qed.

(** X9: [daily_growth] fails with the [KeyError] of the column selection when a
    table lacks [date] or [World]: the error lists the names the table lacks,
    in the order date, World; the table of cases is looked at first, the
    table of deaths only when the cases have both columns.  With both columns
    in both tables it returns markup. *)
Theorem daily_growth_missing_column (s : Store) :
  let missing df := filter (λ n, columns df !! n = None) daily_growth_columns in
  (missing (daily_confirmed_tbl s) ≠ [] →
   daily_growth plot s
     = (inl (KeyError (Columns (missing (daily_confirmed_tbl s)))), s)) ∧
  (missing (daily_confirmed_tbl s) = [] → missing (daily_deaths_tbl s) ≠ [] →
   daily_growth plot s
     = (inl (KeyError (Columns (missing (daily_deaths_tbl s)))), s)) ∧
  (missing (daily_confirmed_tbl s) = [] → missing (daily_deaths_tbl s) = [] →
   ∃ markup, daily_growth plot s = (inr markup, s)).
Proof.
  cbn zeta. rewrite daily_growth_of_figure, daily_growth_figure_run. cbn [fst snd].
  destruct (filter _ daily_growth_columns) as [|n ns];
    destruct (filter (λ n, columns (daily_deaths_tbl s) !! n = None) daily_growth_columns)
      as [|n' ns']; repeat split; try done.
  intros _ _. by eexists.
Qed.

(** X10: [daily_growth] reads the columns [date] and [World] of its two tables and
    nothing else of the tables, not even their index: on two stores that
    agree on these columns, it returns the same markup or raises the same
    error. *)
Theorem daily_growth_reads_only (s1 s2 : Store) :
  (∀ c, c ∈ daily_growth_columns →
     columns (daily_confirmed_tbl s1) !! c = columns (daily_confirmed_tbl s2) !! c) →
  (∀ c, c ∈ daily_growth_columns →
     columns (daily_deaths_tbl s1) !! c = columns (daily_deaths_tbl s2) !! c) →
  (daily_growth_figure s1).1 = (daily_growth_figure s2).1 ∧
  (daily_growth plot s1).1 = (daily_growth plot s2).1.
Proof.
  intros Hc Hd.
  assert (Hfig : (daily_growth_figure s1).1 = (daily_growth_figure s2).1).
  { rewrite !daily_growth_figure_run, !missing_date_World. cbn [fst].
    rewrite (Hc "date"), (Hc "World"), (Hd "date"), (Hd "World")
      by (unfold daily_growth_columns; listed).
    reflexivity. }
  split; [done|]. rewrite !daily_growth_of_figure. cbn [fst]. by rewrite Hfig.
Qed.

(** X11: Every figure of [daily_growth] is a stacked bar chart with the same
    controls: bar mode [stack]; a range selector of exactly four buttons, in
    order W (7 days back), M (1 month back), 3M (3 months back), T (all); the
    y grid in [#fff]; the Cases bars in the default colour and the Deaths
    bars in [#f5365c]. *)
Theorem daily_growth_controls (s s' : Store) (fig : Figure) :
  daily_growth_figure s = (inr fig, s') →
  layout fig !! "barmode" = Some (APrim (PStr "stack")) ∧
  layout fig !! "xaxis.rangeselector.buttons" =
    Some (ARangeButtons
            [{| rb_count := Some 7; rb_label := "W"; rb_step := "day";
                rb_stepmode := Some "backward" |};
             {| rb_count := Some 1; rb_label := "M"; rb_step := "month";
                rb_stepmode := Some "backward" |};
             {| rb_count := Some 3; rb_label := "3M"; rb_step := "month";
                rb_stepmode := Some "backward" |};
             {| rb_count := None; rb_label := "T"; rb_step := "all";
                rb_stepmode := None |}]) ∧
  layout fig !! "yaxis.gridcolor" = Some (APrim (PStr "#fff")) ∧
  ∃ cases deaths,
    data fig = [go_Bar cases; go_Bar deaths] ∧
    bar_marker_color cases = None ∧
    bar_marker_color deaths = Some "#f5365c".
Proof.
  intros Hfig. rewrite daily_growth_figure_run in Hfig.
  destruct (filter _ daily_growth_columns) as [|n ns]; [|done].
  destruct (filter _ daily_growth_columns) as [|n ns]; [|done].
  injection Hfig as <- _. cbn [layout data].
  split; [by vm_compute|].
  split; [rewrite lookup_insert_ne by done; by rewrite lookup_insert_eq|].
  split; [by rewrite lookup_insert_eq|].
  by eexists _, _.
Qed.

End more_daily_growth_facts.

Section more_world_map_facts.

Variable plot : Figure → PlotArgs → string.

(** [world_map] has the outcome of [world_map_figure], rendered. *)
Lemma world_map_of_figure (s : Store) :
  world_map plot s =
    (match (world_map_figure s).1 with
     | inl e => inl e
     | inr fig => inr (plot fig (plot_div_args false))
     end, (world_map_figure s).2).
Proof.
  unfold world_map, bind.
  by destruct (world_map_figure s) as [[e|fig] s'].
Qed.

(** [world_map_figure], by the five columns it names. *)
Lemma world_map_figure_run (s : Store) :
  world_map_figure s =
    (match columns (daily_report_tbl s) !! "Lat",
           columns (daily_report_tbl s) !! "Long_",
           columns (daily_report_tbl s) !! "Confirmed",
           columns (daily_report_tbl s) !! "Country_Region",
           columns (daily_report_tbl s) !! "Combined_Key" with
     | Some lat, Some lon, Some confirmed, Some names, Some keys =>
         if forallb px.is_number confirmed then
           inr (update_layout
                  {| data :=
                       [go_Scattermapbox
                          {| sm_name := None; sm_lat := lat; sm_lon := lon;
                             sm_hovertext := names;
                             sm_customdata := [keys; confirmed];
                             sm_hover_names := ["loc"; "Confirmed"];
                             sm_marker_color := ColorArray confirmed;
                             sm_marker_size := confirmed |}];
                     layout :=
                       Layout
                         [("coloraxis.colorbar.title.text", APrim (PStr "Confirmed"));
                          ("mapbox.zoom", APrim (PInt 1));
                          ("mapbox.center.lat", APrim (PDec 200 (-1)));
                          ("mapbox.center.lon", APrim (PDec (-200) (-1)));
                          ("height", APrim (PInt 450));
                          ("legend.itemsizing", APrim (PStr "constant"));
                          ("legend.tracegroupgap", APrim (PInt 0));
                          ("margin.t", APrim (PInt 60))] |}
                  [("mapbox.style", APrim (PStr "carto-positron"));
                   ("paper_bgcolor", APrim (PStr "rgba(0,0,0,0)"));
                   ("margin.t", APrim (PInt 0)); ("margin.l", APrim (PInt 0));
                   ("margin.r", APrim (PInt 0)); ("margin.b", APrim (PInt 0))])
         else inl (TypeError "Confirmed")
     | None, _, _, _, _ => inl (ValueError "Lat")
     | Some _, None, _, _, _ => inl (ValueError "Long_")
     | Some _, Some _, None, _, _ => inl (ValueError "Confirmed")
     | Some _, Some _, Some _, None, _ => inl (ValueError "Country_Region")
     | Some _, Some _, Some _, Some _, None => inl (ValueError "Combined_Key")
     end, s).
Proof.
  unfold world_map_figure, px.scatter_mapbox. run.
  cbn [px.column_list]. unfold px.column.
  destruct (columns (daily_report_tbl s) !! "Lat") as [lat|]; [|done].
  destruct (columns (daily_report_tbl s) !! "Long_") as [lon|]; [|done].
  destruct (columns (daily_report_tbl s) !! "Confirmed") as [confirmed|]; [|done].
  destruct (columns (daily_report_tbl s) !! "Country_Region") as [names|]; [|done].
  destruct (columns (daily_report_tbl s) !! "Combined_Key") as [keys|]; [|done].
  by destruct (forallb px.is_number confirmed).
Qed.

(** X12: [world_map] fails, without markup and without touching a table, when the
    report lacks one of the five columns it names, and also when a cell of
    [Confirmed] is not a number. *)
Theorem world_map_fails (s : Store) :
  (∃ c, c ∈ world_map_columns ∧ columns (daily_report_tbl s) !! c = None) ∨
  (∃ confirmed cell,
     columns (daily_report_tbl s) !! "Confirmed" = Some confirmed ∧
     cell ∈ confirmed ∧ px.is_number cell = false) →
  ∃ e, world_map plot s = (inl e, s).
Proof.
  intros Hbad. rewrite world_map_of_figure, world_map_figure_run. cbn [fst snd].
  destruct (columns (daily_report_tbl s) !! "Lat") as [lat|] eqn:H1; [|by eexists].
  destruct (columns (daily_report_tbl s) !! "Long_") as [lon|] eqn:H2; [|by eexists].
  destruct (columns (daily_report_tbl s) !! "Confirmed") as [confirmed|] eqn:H3;
    [|by eexists].
  destruct (columns (daily_report_tbl s) !! "Country_Region") as [names|] eqn:H4;
    [|by eexists].
  destruct (columns (daily_report_tbl s) !! "Combined_Key") as [keys|] eqn:H5;
    [|by eexists].
  destruct (forallb px.is_number confirmed) eqn:Hnum; [|by eexists].
  exfalso. destruct Hbad as [(c & Hc & Hnone)|(conf & cell & Hconf & Hcell & Hnot)].
  - unfold world_map_columns in Hc. set_unfold in Hc.
    destruct Hc as [->|[->|[->|[->|[->|[]]]]]]; congruence.
  - injection Hconf as <-.
    rewrite forallb_forall in Hnum. apply list_elem_of_In in Hcell.
    rewrite (Hnum cell Hcell) in Hnot. discriminate.
Qed.

(** X13: On a well-formed report with at least one row, every figure of
    [world_map] is one bubble trace that takes the rows in table order:
    latitude from [Lat], longitude from [Long_], the hover title from
    [Country_Region], and as further hover data [Combined_Key], shown as
    [loc], and [Confirmed]; the trace has a point for every row, and no table
    is touched. *)
Theorem world_map_trace (s s' : Store) (fig : Figure) :
  well_formed (daily_report_tbl s) →
  index (daily_report_tbl s) ≠ [] →
  world_map_figure s = (inr fig, s') →
  s' = s ∧
  ∃ t,
    data fig = [go_Scattermapbox t] ∧
    columns (daily_report_tbl s) !! "Lat" = Some (sm_lat t) ∧
    columns (daily_report_tbl s) !! "Long_" = Some (sm_lon t) ∧
    columns (daily_report_tbl s) !! "Country_Region" = Some (sm_hovertext t) ∧
    (∃ keys confirmed,
       sm_customdata t = [keys; confirmed] ∧
       columns (daily_report_tbl s) !! "Combined_Key" = Some keys ∧
       columns (daily_report_tbl s) !! "Confirmed" = Some confirmed) ∧
    sm_hover_names t = ["loc"; "Confirmed"] ∧
    length (sm_lat t) = length (index (daily_report_tbl s)) ∧
    sm_lat t ≠ [].
Proof.
  intros Hwf Hrows. rewrite world_map_figure_run.
  destruct (columns (daily_report_tbl s) !! "Lat") as [lat|] eqn:Hlat; [|done].
  destruct (columns (daily_report_tbl s) !! "Long_") as [lon|]; [|done].
  destruct (columns (daily_report_tbl s) !! "Confirmed") as [confirmed|]; [|done].
  destruct (columns (daily_report_tbl s) !! "Country_Region") as [names|]; [|done].
  destruct (columns (daily_report_tbl s) !! "Combined_Key") as [keys|]; [|done].
  destruct (forallb px.is_number confirmed); [|done].
  intros [= <- <-]. split; [done|]. eexists. split; [reflexivity|]. cbn.
  pose proof (Hwf "Lat" lat Hlat) as Hlen.
  repeat split; try done.
  - by exists keys, confirmed.
  - intros ->. destruct (index (daily_report_tbl s)); [by apply Hrows|discriminate Hlen].
Qed.

(** X14: Every figure of [world_map] opens on the same view: zoom 1 and centre
    (20.0, -20.0) as given to [px.scatter_mapbox], height 450, the
    [carto-positron] style, a transparent paper, and all four margins 0: the
    [update_layout] of line 117 overrides the top margin the figure comes
    with. *)
Theorem world_map_view (s s' : Store) (fig : Figure) :
  world_map_figure s = (inr fig, s') →
  layout fig !! "mapbox.zoom" = Some (APrim (PInt 1)) ∧
  layout fig !! "mapbox.center.lat" = Some (APrim (PDec 200 (-1))) ∧
  layout fig !! "mapbox.center.lon" = Some (APrim (PDec (-200) (-1))) ∧
  layout fig !! "height" = Some (APrim (PInt 450)) ∧
  layout fig !! "mapbox.style" = Some (APrim (PStr "carto-positron")) ∧
  layout fig !! "paper_bgcolor" = Some (APrim (PStr "rgba(0,0,0,0)")) ∧
  (∀ side, side ∈ ["margin.t"; "margin.l"; "margin.r"; "margin.b"] →
     layout fig !! side = Some (APrim (PInt 0))).
Proof.
  rewrite world_map_figure_run.
  destruct (columns (daily_report_tbl s) !! "Lat") as [lat|]; [|done].
  destruct (columns (daily_report_tbl s) !! "Long_") as [lon|]; [|done].
  destruct (columns (daily_report_tbl s) !! "Confirmed") as [confirmed|]; [|done].
  destruct (columns (daily_report_tbl s) !! "Country_Region") as [names|]; [|done].
  destruct (columns (daily_report_tbl s) !! "Combined_Key") as [keys|]; [|done].
  destruct (forallb px.is_number confirmed); [|done].
  intros [= <- _]. cbn [layout update_layout].
  repeat (split; [by vm_compute|]).
  intros side Hside. set_unfold in Hside.
  destruct Hside as [->|[->|[->|[->|[]]]]]; by vm_compute.
Qed.

(** X15: [world_map] reads the five columns it names and nothing else of the
    tables, not even the index of the report: on two stores that agree on
    these columns, it returns the same markup or raises the same error. *)
Theorem world_map_reads_only (s1 s2 : Store) :
  (∀ c, c ∈ world_map_columns →
     columns (daily_report_tbl s1) !! c = columns (daily_report_tbl s2) !! c) →
  (world_map_figure s1).1 = (world_map_figure s2).1 ∧
  (world_map plot s1).1 = (world_map plot s2).1.
Proof.
  intros Hc.
  assert (Hfig : (world_map_figure s1).1 = (world_map_figure s2).1).
  { rewrite !world_map_figure_run. cbn [fst].
    rewrite (Hc "Lat"), (Hc "Long_"), (Hc "Confirmed"), (Hc "Country_Region"),
      (Hc "Combined_Key") by (unfold world_map_columns; listed).
    reflexivity. }
  split; [done|]. rewrite !world_map_of_figure. cbn [fst]. by rewrite Hfig.
Qed.

End more_world_map_facts.

Section builders_together.

Variable to_datetime : list Label → option (list Z).
Variable plot : Figure → PlotArgs → string.
Variable last_stop_color : string.

(** [usa_map] leaves the four tables that are not its own as they were. *)
Lemma usa_map_other_tables (response : exn + JSON) (s : Store) :
  realtime_growth_tbl (usa_map last_stop_color response s).2 = realtime_growth_tbl s ∧
  daily_confirmed_tbl (usa_map last_stop_color response s).2 = daily_confirmed_tbl s ∧
  daily_deaths_tbl (usa_map last_stop_color response s).2 = daily_deaths_tbl s ∧
  daily_report_tbl (usa_map last_stop_color response s).2 = daily_report_tbl s.
Proof.
  rewrite usa_map_state, usa_map_figure_state.
  destruct response as [e|doc]; [done|].
  by destruct (pd.drop (usa_counties_tbl s) [LInt 2311]).
Qed.

(** X6: The builders do not get in each other's way: after a call of [usa_map],
    whatever it did to the county table, [total_growth], [daily_growth] and
    [world_map] return what they return without it; and after a call of one
    of these three, [usa_map] does what it does without it. *)
Theorem builders_independent (response : exn + JSON) (s : Store) :
  (total_growth to_datetime plot (usa_map last_stop_color response s).2).1
    = (total_growth to_datetime plot s).1 ∧
  (daily_growth plot (usa_map last_stop_color response s).2).1
    = (daily_growth plot s).1 ∧
  (world_map plot (usa_map last_stop_color response s).2).1
    = (world_map plot s).1 ∧
  usa_map last_stop_color response (total_growth to_datetime plot s).2
    = usa_map last_stop_color response s ∧
  usa_map last_stop_color response (daily_growth plot s).2
    = usa_map last_stop_color response s ∧
  usa_map last_stop_color response (world_map plot s).2
    = usa_map last_stop_color response s.
Proof.
  destruct (usa_map_other_tables response s) as (Hg & Hc & Hd & Hr).
  split; [|split; [|split]].
  - rewrite !total_growth_of_figure. cbn [fst].
    rewrite (total_growth_figure_reads to_datetime _ s); [done|by rewrite Hg|].
    intros c _. by rewrite Hg.
  - rewrite !daily_growth_of_figure, !daily_growth_figure_run. cbn [fst].
    by rewrite Hc, Hd.
  - rewrite !world_map_of_figure, !world_map_figure_run. cbn [fst].
    by rewrite Hr.
  - by rewrite total_growth_preserves, daily_growth_preserves, world_map_preserves.
Qed.

(** X16: The layout of a figure does not depend on the tables: any two figures
    [total_growth] builds have the same layout, and so have any two of
    [daily_growth] and any two of [usa_map]. *)
Theorem layout_independent_of_tables :
  (∀ s1 s1' s2 s2' fig1 fig2,
     total_growth_figure to_datetime s1 = (inr fig1, s1') →
     total_growth_figure to_datetime s2 = (inr fig2, s2') →
     layout fig1 = layout fig2) ∧
  (∀ s1 s1' s2 s2' fig1 fig2,
     daily_growth_figure s1 = (inr fig1, s1') →
     daily_growth_figure s2 = (inr fig2, s2') →
     layout fig1 = layout fig2) ∧
  (∀ doc1 doc2 s1 s1' s2 s2' fig1 fig2,
     usa_map_figure last_stop_color (inr doc1) s1 = (inr fig1, s1') →
     usa_map_figure last_stop_color (inr doc2) s2 = (inr fig2, s2') →
     layout fig1 = layout fig2).
Proof.
  split; [|split].
  - intros s1 s1' s2 s2' fig1 fig2 H1 H2.
    destruct (total_growth_figure_inv _ _ _ _ H1) as (d1 & c1 & r1 & x1 & ? & ? & ? & ?).
    destruct (total_growth_figure_inv _ _ _ _ H2) as (d2 & c2 & r2 & x2 & ? & ? & ? & ?).
    rewrite (total_growth_figure_ok _ s1 d1 c1 r1 x1) in H1 by done.
    rewrite (total_growth_figure_ok _ s2 d2 c2 r2 x2) in H2 by done.
    by injection H1 as <- _; injection H2 as <- _.
  - intros s1 s1' s2 s2' fig1 fig2 H1 H2.
    by rewrite (daily_growth_figure_layout _ _ _ H1), (daily_growth_figure_layout _ _ _ H2).
  - intros doc1 doc2 s1 s1' s2 s2' fig1 fig2 H1 H2.
    destruct (usa_map_figure_inv _ _ _ _ _ H1) as (Hin1 & f1 & z1 & Hf1 & Hz1).
    destruct (usa_map_figure_inv _ _ _ _ _ H2) as (Hin2 & f2 & z2 & Hf2 & Hz2).
    rewrite (usa_map_figure_present _ _ _ Hin1), Hf1, Hz1 in H1.
    rewrite (usa_map_figure_present _ _ _ Hin2), Hf2, Hz2 in H2.
    by injection H1 as <- _; injection H2 as <- _.
Qed.

(** X17: On well-formed tables the series are aligned with the rows: each of the
    three series of [total_growth] has one y value per row of the growth
    table, each bar series of [daily_growth] has as many x as y values, and
    the bubble trace of [world_map] has one latitude, longitude, hover title,
    size and colour value per row of the report. *)
Theorem series_aligned_with_rows (s : Store) :
  (well_formed (realtime_growth_tbl s) →
   ∀ s' fig, total_growth_figure to_datetime s = (inr fig, s') →
   ∀ tr, tr ∈ data fig →
     ∃ t, tr = go_Scatter t ∧
          length (sc_y t) = length (index (realtime_growth_tbl s))) ∧
  (well_formed (daily_confirmed_tbl s) → well_formed (daily_deaths_tbl s) →
   ∀ s' fig, daily_growth_figure s = (inr fig, s') →
   ∀ tr, tr ∈ data fig →
     ∃ t, tr = go_Bar t ∧ length (bar_x t) = length (bar_y t)) ∧
  (well_formed (daily_report_tbl s) →
   ∀ s' fig, world_map_figure s = (inr fig, s') →
   ∀ tr, tr ∈ data fig →
     ∃ t, tr = go_Scattermapbox t ∧
          length (sm_lat t) = length (index (daily_report_tbl s)) ∧
          length (sm_lon t) = length (index (daily_report_tbl s)) ∧
          length (sm_hovertext t) = length (index (daily_report_tbl s)) ∧
          length (sm_marker_size t) = length (index (daily_report_tbl s)) ∧
          sm_marker_color t = ColorArray (sm_marker_size t)).
Proof.
  split; [|split].
  - intros Hwf s' fig Hfig tr Htr.
    destruct (total_growth_figure_inv _ _ _ _ Hfig) as (d & c & r & x & Hd & Hc & Hr & Hx).
    rewrite (total_growth_figure_ok _ s d c r x Hd Hc Hr Hx) in Hfig.
    injection Hfig as <- _. cbn in Htr. set_unfold in Htr.
    destruct Htr as [->|[->|[->|[]]]]; eexists; (split; [reflexivity|]); cbn.
    + by apply (Hwf "Confirmed").
    + by apply (Hwf "Deaths").
    + by apply (Hwf "Recovered").
  - intros Hwc Hwd s' fig Hfig tr Htr.
    rewrite daily_growth_figure_run, !missing_date_World in Hfig.
    destruct (columns (daily_confirmed_tbl s) !! "date") as [cd|] eqn:Hcd;
      destruct (columns (daily_confirmed_tbl s) !! "World") as [cw|] eqn:Hcw;
      try done.
    destruct (columns (daily_deaths_tbl s) !! "date") as [dd|] eqn:Hdd;
      destruct (columns (daily_deaths_tbl s) !! "World") as [dw|] eqn:Hdw;
      try done.
    injection Hfig as <- _. cbn in Htr. set_unfold in Htr.
    destruct Htr as [->|[->|[]]]; eexists; (split; [reflexivity|]); cbn.
    + by rewrite (Hwc "date" cd), (Hwc "World" cw).
    + by rewrite (Hwd "date" dd), (Hwd "World" dw).
  - intros Hwf s' fig Hfig tr Htr.
    rewrite world_map_figure_run in Hfig.
    destruct (columns (daily_report_tbl s) !! "Lat") as [lat|] eqn:H1; [|done].
    destruct (columns (daily_report_tbl s) !! "Long_") as [lon|] eqn:H2; [|done].
    destruct (columns (daily_report_tbl s) !! "Confirmed") as [confirmed|] eqn:H3;
      [|done].
    destruct (columns (daily_report_tbl s) !! "Country_Region") as [names|] eqn:H4;
      [|done].
    destruct (columns (daily_report_tbl s) !! "Combined_Key") as [keys|] eqn:H5;
      [|done].
    destruct (forallb px.is_number confirmed); [|done].
    injection Hfig as <- _. cbn in Htr. set_unfold in Htr.
    destruct Htr as [->|[]]. eexists. split; [reflexivity|]. cbn.
    repeat split.
    + by apply (Hwf "Lat").
    + by apply (Hwf "Long_").
    + by apply (Hwf "Country_Region").
    + by apply (Hwf "Confirmed").
Qed.

End builders_together.

(** * The further properties at the sample tables *)

(** A frame is well formed when every column passes the length test. *)
Lemma well_formed_by_test (df : DataFrame) :
  map_Forall (λ _ col, length col = length (index df)) (columns df) →
  well_formed df.
Proof. intros Hall name col Hcol. by apply (Hall name col). Qed.

Lemma sample_counties_well_formed : well_formed sample.counties.
Proof.
  apply well_formed_by_test. apply (bool_decide_unpack _). vm_compute. exact I.
Defined.

Lemma sample_report_well_formed : well_formed sample.report.
Proof.
  apply well_formed_by_test. apply (bool_decide_unpack _). vm_compute. exact I.
Defined.

Lemma usa_map_keeps_well_formed_witness :
  well_formed
    (usa_counties_tbl
       (usa_map sample.last_stop_color (inr sample.boundaries) sample.tables).2).
Proof.
  apply (usa_map_keeps_well_formed sample.last_stop_color (inr sample.boundaries)
           sample.tables).
  exact sample_counties_well_formed.
Defined.

Lemma usa_map_one_location_per_row_witness :
  ∃ fig s' t,
    usa_map_figure sample.last_stop_color (inr sample.boundaries) sample.tables
      = (inr fig, s') ∧
    data fig = [go_Choroplethmapbox t] ∧
    length (ch_locations t) = length (index (usa_counties_tbl s')) ∧
    length (ch_z t) = length (index (usa_counties_tbl s')) ∧
    (length (index (usa_counties_tbl s'))
     + length (filter (λ l, l = LInt 2311) (index (usa_counties_tbl sample.tables)))
     = length (index (usa_counties_tbl sample.tables)))%nat.
Proof.
  assert (∃ fig s',
            usa_map_figure sample.last_stop_color (inr sample.boundaries) sample.tables
              = (inr fig, s')) as (fig & s' & Hrun)
    by (eexists _, _; vm_compute; reflexivity).
  destruct (usa_map_one_location_per_row sample.last_stop_color sample.boundaries
              sample.tables s' fig sample_counties_well_formed Hrun)
    as (t & Hdata & Hloc & Hz & Hcount).
  exists fig, s', t. split; [exact Hrun|]. split; [exact Hdata|].
  split; [exact Hloc|]. split; [exact Hz|exact Hcount].
Defined.

Lemma usa_map_raises_after_drop_witness :
  (∃ s',
     usa_map sample.last_stop_color (inr sample.boundaries) sample.tables_no_fips
       = (inl (AttributeError "fips"), s') ∧
     (LInt 2311 ∉ index (usa_counties_tbl s')) ∧
     s' ≠ sample.tables_no_fips) ∧
  (∃ s',
     usa_map sample.last_stop_color (inr sample.boundaries) sample.tables_no_cases_capita
       = (inl (KeyError (Columns ["cases/capita"])), s') ∧
     (LInt 2311 ∉ index (usa_counties_tbl s')) ∧
     s' ≠ sample.tables_no_cases_capita).
Proof.
  split.
  - destruct (usa_map_raises_after_drop sample.last_stop_color sample.boundaries
                sample.tables_no_fips) as (s' & Hrun & Hnot & Hne).
    + unfold sample.tables_no_fips, sample.counties. cbn. listed.
    + left. vm_compute. reflexivity.
    + exists s'. split; [|split; [exact Hnot|exact Hne]].
      rewrite Hrun. reflexivity.
  - destruct (usa_map_raises_after_drop sample.last_stop_color sample.boundaries
                sample.tables_no_cases_capita) as (s' & Hrun & Hnot & Hne).
    + unfold sample.tables_no_cases_capita, sample.counties. cbn. listed.
    + right. vm_compute. reflexivity.
    + exists s'. split; [|split; [exact Hnot|exact Hne]].
      rewrite Hrun. reflexivity.
Defined.

Lemma usa_map_reads_only_witness :
  (usa_map_figure sample.last_stop_color (inr sample.boundaries) sample.tables).1
    = (usa_map_figure sample.last_stop_color (inr sample.boundaries)
         sample.tables_elsewhere).1 ∧
  (usa_map sample.last_stop_color (inr sample.boundaries) sample.tables).1
    = (usa_map sample.last_stop_color (inr sample.boundaries)
         sample.tables_elsewhere).1.
Proof.
  apply (usa_map_reads_only sample.last_stop_color (inr sample.boundaries)
           sample.tables sample.tables_elsewhere); vm_compute; reflexivity.
Defined.

Lemma total_growth_bad_index_witness :
  ∃ what,
    total_growth sample.to_datetime sample.plot sample.tables_bad_index
      = (inl (ValueError what), sample.tables_bad_index).
Proof.
  apply (total_growth_bad_index sample.to_datetime sample.plot sample.tables_bad_index).
  vm_compute. reflexivity.
Defined.

Lemma total_growth_reads_only_witness :
  (total_growth sample.to_datetime sample.plot sample.tables).1
    = (total_growth sample.to_datetime sample.plot sample.tables_elsewhere).1.
Proof.
  apply (total_growth_reads_only sample.to_datetime sample.plot
           sample.tables sample.tables_elsewhere).
  - reflexivity.
  - intros c Hc. unfold total_growth_columns in Hc.
    apply elem_of_cons in Hc as [->|Hc]; [vm_compute; reflexivity|].
    apply elem_of_cons in Hc as [->|Hc]; [vm_compute; reflexivity|].
    apply list_elem_of_singleton in Hc as ->. vm_compute. reflexivity.
Defined.

Lemma daily_growth_missing_column_witness :
  daily_growth sample.plot sample.tables_no_World
    = (inl (KeyError (Columns ["World"])), sample.tables_no_World) ∧
  ∃ markup, daily_growth sample.plot sample.tables = (inr markup, sample.tables).
Proof.
  split.
  - destruct (daily_growth_missing_column sample.plot sample.tables_no_World)
      as (Hcases & _ & _).
    rewrite Hcases; [vm_compute; reflexivity|].
    vm_compute. discriminate.
  - destruct (daily_growth_missing_column sample.plot sample.tables) as (_ & _ & Hok).
    apply Hok; vm_compute; reflexivity.
Defined.

Lemma daily_growth_reads_only_witness :
  (daily_growth_figure sample.tables).1 = (daily_growth_figure sample.tables_elsewhere).1 ∧
  (daily_growth sample.plot sample.tables).1
    = (daily_growth sample.plot sample.tables_elsewhere).1.
Proof.
  apply (daily_growth_reads_only sample.plot sample.tables sample.tables_elsewhere);
    intros c Hc; unfold daily_growth_columns in Hc;
    (apply elem_of_cons in Hc as [->|Hc]; [vm_compute; reflexivity|]);
    apply list_elem_of_singleton in Hc as ->; vm_compute; reflexivity.
Defined.

Lemma daily_growth_controls_witness :
  ∃ fig,
    daily_growth_figure sample.tables = (inr fig, sample.tables) ∧
    layout fig !! "barmode" = Some (APrim (PStr "stack")) ∧
    layout fig !! "xaxis.rangeselector.buttons"
      = Some (ARangeButtons daily_growth_rangeselector) ∧
    layout fig !! "yaxis.gridcolor" = Some (APrim (PStr "#fff")).
Proof.
  assert (∃ fig, daily_growth_figure sample.tables = (inr fig, sample.tables))
    as [fig Hrun] by (eexists; vm_compute; reflexivity).
  destruct (daily_growth_controls sample.tables sample.tables fig Hrun)
    as (Hmode & Hsel & Hgrid & _).
  exists fig. split; [exact Hrun|]. split; [exact Hmode|]. split; [exact Hsel|exact Hgrid].
Defined.

Lemma world_map_fails_witness :
  ∃ e, world_map sample.plot sample.tables_no_Long = (inl e, sample.tables_no_Long).
Proof.
  apply (world_map_fails sample.plot sample.tables_no_Long).
  left. exists "Long_". split; [unfold world_map_columns; listed|].
  vm_compute. reflexivity.
Defined.

Lemma world_map_trace_witness :
  ∃ fig t,
    world_map_figure sample.tables = (inr fig, sample.tables) ∧
    data fig = [go_Scattermapbox t] ∧
    columns (daily_report_tbl sample.tables) !! "Lat" = Some (sm_lat t) ∧
    columns (daily_report_tbl sample.tables) !! "Long_" = Some (sm_lon t) ∧
    columns (daily_report_tbl sample.tables) !! "Country_Region"
      = Some (sm_hovertext t) ∧
    sm_hover_names t = ["loc"; "Confirmed"] ∧
    sm_lat t ≠ [].
Proof.
  assert (∃ fig, world_map_figure sample.tables = (inr fig, sample.tables))
    as [fig Hrun] by (eexists; vm_compute; reflexivity).
  destruct (world_map_trace sample.tables sample.tables fig) as (_ & t & Hrest).
  - exact sample_report_well_formed.
  - vm_compute. discriminate.
  - exact Hrun.
  - destruct Hrest as (Hdata & Hlat & Hlon & Hhover & _ & Hnames & _ & Hrows).
    exists fig, t. split; [exact Hrun|]. split; [exact Hdata|]. split; [exact Hlat|].
    split; [exact Hlon|]. split; [exact Hhover|]. split; [exact Hnames|exact Hrows].
Defined.

Lemma world_map_view_witness :
  ∃ fig,
    world_map_figure sample.tables = (inr fig, sample.tables) ∧
    layout fig !! "mapbox.zoom" = Some (APrim (PInt 1)) ∧
    layout fig !! "margin.t" = Some (APrim (PInt 0)).
Proof.
  assert (∃ fig, world_map_figure sample.tables = (inr fig, sample.tables))
    as [fig Hrun] by (eexists; vm_compute; reflexivity).
  destruct (world_map_view sample.tables sample.tables fig Hrun)
    as (Hzoom & _ & _ & _ & _ & _ & Hmargin).
  exists fig. split; [exact Hrun|]. split; [exact Hzoom|].
  apply Hmargin. listed.
Defined.

Lemma world_map_reads_only_witness :
  (world_map_figure sample.tables).1 = (world_map_figure sample.tables_elsewhere).1 ∧
  (world_map sample.plot sample.tables).1
    = (world_map sample.plot sample.tables_elsewhere).1.
Proof.
  apply (world_map_reads_only sample.plot sample.tables sample.tables_elsewhere).
  intros c Hc. unfold world_map_columns in Hc.
  repeat (apply elem_of_cons in Hc as [->|Hc]; [vm_compute; reflexivity|]).
  by apply elem_of_nil in Hc.
Defined.

Lemma layout_independent_of_tables_witness :
  ∃ fig1 fig2,
    daily_growth_figure sample.tables = (inr fig1, sample.tables) ∧
    daily_growth_figure sample.tables_elsewhere = (inr fig2, sample.tables_elsewhere) ∧
    data fig1 = data fig2 ∧
    layout fig1 = layout fig2.
Proof.
  assert (∃ fig, daily_growth_figure sample.tables = (inr fig, sample.tables))
    as [fig1 Hrun1] by (eexists; vm_compute; reflexivity).
  assert (∃ fig, daily_growth_figure sample.tables_elsewhere
                 = (inr fig, sample.tables_elsewhere))
    as [fig2 Hrun2] by (eexists; vm_compute; reflexivity).
  destruct (layout_independent_of_tables sample.to_datetime sample.last_stop_color)
    as (_ & Hdaily & _).
  exists fig1, fig2. split; [exact Hrun1|]. split; [exact Hrun2|]. split.
  - assert (Hsame : (daily_growth_figure sample.tables).1
                    = (daily_growth_figure sample.tables_elsewhere).1)
      by (vm_compute; reflexivity).
    rewrite Hrun1, Hrun2 in Hsame. by injection Hsame as ->.
  - exact (Hdaily _ _ _ _ _ _ Hrun1 Hrun2).
Defined.

Lemma series_aligned_with_rows_witness :
  ∃ fig t,
    world_map_figure sample.tables = (inr fig, sample.tables) ∧
    data fig = [go_Scattermapbox t] ∧
    length (sm_lat t) = 2%nat ∧ length (sm_marker_size t) = 2%nat.
Proof.
  assert (∃ fig, world_map_figure sample.tables = (inr fig, sample.tables))
    as [fig Hrun] by (eexists; vm_compute; reflexivity).
  destruct (series_aligned_with_rows sample.to_datetime sample.tables) as (_ & _ & Hworld).
  destruct (world_map_figure_inv _ _ _ Hrun) as (confirmed & t & _ & Hdata & _).
  destruct (Hworld sample_report_well_formed _ _ Hrun (go_Scattermapbox t))
    as (t' & Heq & Hlat & _ & _ & Hsize & _).
  - rewrite Hdata. listed.
  - injection Heq as <-. exists fig, t.
    split; [exact Hrun|]. split; [exact Hdata|]. split; [exact Hlat|exact Hsize].
Defined.
